(** * docio loader: a shallow embedding of [docio/routers/loader.py]

    The development follows the Python module top to bottom:
    - Python strings are lists of Unicode code points ([str]), dictionaries
      with string keys are [gmap str _];
    - [make_printable] and its translation table [NOPRINT_TRANS_TABLE];
    - [os.path.splitext] as the POSIX implementation of the interpreter
      ([genericpath._splitext] with separator [/] and extension separator [.]);
    - [load_file] and the request handler [load_file_api], written in a small
      state-and-exception monad over a world made of the file system, the
      open temporary-file handles and the trace of logger and loader calls.

    What lives outside the module is a parameter of the sections below:
    [str.isprintable], [str.lower], the [load] method of the three document
    loaders, and the operating-system side of [tempfile]. *)

From Stdlib Require Import ZArith Ascii String.
From stdpp Require Import gmap list fin_maps.

Local Open Scope Z_scope.

(** ** Python strings *)

(** A Python [str] is a sequence of code points. *)
Definition str : Type := list Z.

(** [sys.maxunicode] *)
Definition maxunicode : Z := 1114111.

(** A well-formed string only holds code points of [range(0, sys.maxunicode + 1)]. *)
Definition is_codepoint (c : Z) : bool := (0 <=? c) && (c <=? maxunicode).
Definition valid_str (s : str) : Prop := Forall (fun c => is_codepoint c = true) s.

(** String literals of the source, as code-point lists. *)
Definition ord (a : ascii) : Z := Z.of_N (N_of_ascii a).
Definition py (s : string) : str := map ord (list_ascii_of_string s).

Definition newline : Z := 10.
Definition sep : Z := 47.      (* "/" *)
Definition extsep : Z := 46.   (* "." *)

Definition str_eqb (a b : str) : bool := bool_decide (a = b).

(** Slices [p[:i]], [p[i:]] and [p[i:j]] for indices that are not negative
    (the only ones the code below produces). *)
Definition slice_to (p : str) (i : Z) : str := take (Z.to_nat i) p.
Definition slice_from (p : str) (i : Z) : str := drop (Z.to_nat i) p.
Definition slice (p : str) (i j : Z) : str := take (Z.to_nat (j - i)) (drop (Z.to_nat i) p).

(** [p.rfind(c)] for a one-character needle: the highest index holding [c],
    or [-1]. *)
Fixpoint rfind_from (c : Z) (s : str) (i : Z) (found : Z) : Z :=
  match s with
  | [] => found
  | x :: s' => rfind_from c s' (i + 1) (if x =? c then i else found)
  end.

Definition rfind (s : str) (c : Z) : Z := rfind_from c s 0 (-1).

(** [str.translate(table)]: a code point without an entry is kept, one mapped
    to [None] is dropped, one mapped to a string is replaced by it. *)
Fixpoint translate (table : Z -> option (option str)) (s : str) : str :=
  match s with
  | [] => []
  | c :: s' =>
      match table c with
      | None => c :: translate table s'
      | Some None => translate table s'
      | Some (Some r) => r ++ translate table s'
      end
  end.

(** ** The sanitizer *)

Section Sanitizer.

(** [chr(i).isprintable()], a property of the Unicode character database. *)
Variable isprintable : Z -> bool.

(** The condition of the comprehension that builds the table. *)
Definition noprint (i : Z) : bool := negb (isprintable i) && negb (i =? newline).

(** [{i: None for i in range(0, sys.maxunicode + 1)
        if not chr(i).isprintable() and chr(i) != "\n"}],
      as the dictionary itself ... *)
Definition NOPRINT_TRANS_DICT : gmap Z (option str) :=
    list_to_map ((fun i => (i, None)) <$> filter (fun i => noprint i = true) (seqZ 0 (maxunicode + 1))).

(** ... and as its lookup function, which is what [translate] runs on. *)
Definition NOPRINT_TRANS_TABLE (i : Z) : option (option str) :=
    if is_codepoint i && noprint i then Some None else None.

Definition make_printable (s : str) : str := translate NOPRINT_TRANS_TABLE s.

(** The characters that survive. *)
Definition keeps (c : Z) : bool := isprintable c || (c =? newline).

End Sanitizer.

(** ** [os.path.splitext] *)

(** The loop of [genericpath._splitext] that skips leading dots; [n] counts
    the iterations that are left, and the caller passes exactly
    [dotIndex - filenameIndex] of them. *)
Fixpoint skip_leading_dots (p : str) (dotIndex : Z) (n : nat) (filenameIndex : Z) : str * str :=
  match n with
  | O => (p, slice_to p 0)
  | S n' =>
      if filenameIndex <? dotIndex then
        if negb (str_eqb (slice p filenameIndex (filenameIndex + 1)) [extsep]) then
          (slice_to p dotIndex, slice_from p dotIndex)
        else skip_leading_dots p dotIndex n' (filenameIndex + 1)
      else (p, slice_to p 0)
  end.

Definition splitext (p : str) : str * str :=
  let sepIndex := rfind p sep in
  let dotIndex := rfind p extsep in
  if sepIndex <? dotIndex then
    let filenameIndex := sepIndex + 1 in
    skip_leading_dots p dotIndex (Z.to_nat (dotIndex - filenameIndex)) filenameIndex
  else (p, slice_to p 0).


(** [os.path.join(a, b)] on POSIX. *)
Definition join (a b : str) : str :=
  match b with
  | c :: _ => if c =? sep then b
              else match last a with
                   | None => a ++ b
                   | Some l => if l =? sep then a ++ b else a ++ [sep] ++ b
                   end
  | [] => match last a with
          | None => a ++ b
          | Some l => if l =? sep then a ++ b else a ++ [sep] ++ b
          end
  end.

(** ** Documents *)

(** The metadata values the loaders produce. *)
Inductive value : Type :=
| VNone
| VInt (z : Z)
| VStr (s : str).

Definition is_int (v : value) : bool :=
  match v with VInt _ => true | _ => false end.

(** Both the loaders' documents and [jamaibase.protocol.Document] carry a
    text and a metadata dictionary. *)
Record Document : Type := mkDocument {
  page_content : str;
  metadata : gmap str value
}.

(** [m.get(k, d)] *)
Definition dict_get {V} (m : gmap str V) (k : str) (d : V) : V := default d (m !! k).

(** The three loader objects [load_file] constructs, with their file path. *)
Inductive Loader : Type :=
| TextLoader (file_path : str)
| PDFPlumberLoader (file_path : str)
| CSVLoader (file_path : str).

(** ** Exceptions and the world *)

Inductive exn : Type :=
| ValueError (msg : str)
| TypeError (msg : str)
| RequestValidationError (errors : str)
| OtherException (cls : str) (msg : str)   (* any other subclass of Exception *)
| NonException (cls : str).                (* BaseException outside Exception *)

Definition is_RequestValidationError (e : exn) : bool :=
  match e with RequestValidationError _ => true | _ => false end.

Definition is_Exception (e : exn) : bool :=
  match e with NonException _ => false | _ => true end.

Inductive result (A : Type) : Type :=
| Ok (a : A)
| Raise (e : exn).
Arguments Ok {A} a.
Arguments Raise {A} e.

Definition bytes : Type := list Byte.byte.

(** The calls that leave the module: the four logger calls, and the [load]
    of a loader. *)
Inductive Event : Type :=
| logger_info_upload (content_type filename : option str)
| logger_trace_tmp (name : str)
| logger_info_docio (documents : list Document)
| logger_exception (e : exn)
| loader_load (l : Loader).

(** Files on disk, the open temporary files with the bytes written to them
    but not yet flushed, and the calls made so far (latest first). *)
Record World : Type := mkWorld {
  fs : gmap str bytes;
  handles : gmap str bytes;
  trace : list Event
}.

Definition M (A : Type) : Type := World -> result A * World.

Definition ret {A} (a : A) : M A := fun w => (Ok a, w).
Definition raise {A} (e : exn) : M A := fun w => (Raise e, w).
Definition bind {A B} (c : M A) (k : A -> M B) : M B :=
  fun w => match c w with
           | (Ok a, w') => k a w'
           | (Raise e, w') => (Raise e, w')
           end.
Definition lift {A} (r : result A) : M A := fun w => (r, w).
Definition emit (ev : Event) : M unit :=
  fun w => (Ok tt, mkWorld (fs w) (handles w) (ev :: trace w)).

Declare Scope py_scope.
Delimit Scope py_scope with py.
Notation "x <- c ;; k" := (bind c (fun x => k))
  (at level 100, c at next level, right associativity) : py_scope.
Notation "c ;; k" := (bind c (fun _ => k))
  (at level 100, right associativity) : py_scope.
Local Open Scope py_scope.

(** [try: body / except ...: handler]: the handler runs in the world the
    body left behind. *)
Definition try_except {A} (body : M A) (handler : exn -> M A) : M A :=
  fun w => match body w with
           | (Ok a, w') => (Ok a, w')
           | (Raise e, w') => handler e w'
           end.

(** An uploaded file: its name and content type as the client sent them
    (both optional in Starlette), and what [await file.read()] yields. *)
Record UploadFile : Type := mkUploadFile {
  filename : option str;
  content_type : option str;
  read : result bytes
}.

Definition value_of (o : option str) : value :=
  match o with Some s => VStr s | None => VNone end.

(** [splitext] of an optional path: [os.fspath(None)] is a [TypeError]. *)
Definition splitext_opt (p : option str) : result (str * str) :=
  match p with
  | Some p => Ok (splitext p)
  | None => Raise (TypeError (py "expected str, bytes or os.PathLike object, not NoneType"))
  end.

(** The alphabet of [tempfile._RandomNameSequence]. *)
Definition tempfile_characters : str := py "abcdefghijklmnopqrstuvwxyz0123456789_".

Section Loader.

Variable isprintable : Z -> bool.

(** [str.lower] *)
Variable lower : str -> str.

(** What [loader.load()] does for a loader, given the files it can read:
    the documents in extraction order, or the exception it raises. *)
Variable load : Loader -> gmap str bytes -> result (list Document).

(** [tempfile.gettempdir()], the name [tempfile] draws for the new file, and
    the error, if any, with which creating a file of a given path fails. *)
Variable gettempdir : str.
Variable candidate : str.
Variable mkstemp_error : str -> option exn.

Definition Loader_load (l : Loader) : M (list Document) :=
  emit (loader_load l) ;;
  (fun w => (load l (fs w), w)).

(** The conditional at the head of [load_file]. *)
Definition select_loader (file_path : str) : result Loader :=
  let ext := lower (splitext file_path).2 in
  if bool_decide (ext ∈ [py ".txt"; py ".md"]) then Ok (TextLoader file_path)
  else if str_eqb ext (py ".pdf") then Ok (PDFPlumberLoader file_path)
  else if str_eqb ext (py ".csv") then Ok (CSVLoader file_path)
  else Raise (ValueError (py "Unsupported file type: " ++ ext)).

(** The element of the list comprehension of [load_file]:
    [{"page": d.metadata.get("page", 0), **d.metadata}] lets the entries of
    [d.metadata] win over the default. *)
Definition normalize (d : Document) : Document :=
  mkDocument
    (make_printable isprintable (page_content d))
    (metadata d ∪ {[ py "page" := dict_get (metadata d) (py "page") (VInt 0) ]}).

Definition load_file (file_path : str) : M (list Document) :=
  loader <- lift (select_loader file_path) ;;
  documents <- Loader_load loader ;;
  emit (logger_info_docio documents) ;;
  ret (map normalize documents).

(** [NamedTemporaryFile(suffix=ext)]: the file is created empty and opened. *)
Definition tmp_name (suffix : str) : str :=
  join gettempdir (py "tmp" ++ candidate ++ suffix).

Definition NamedTemporaryFile (suffix : str) : M str :=
  let name := tmp_name suffix in
  match mkstemp_error name with
  | Some e => raise e
  | None => fun w => (Ok name, mkWorld (<[name := []]> (fs w)) (<[name := []]> (handles w)) (trace w))
  end.

(** [tmp.write(data)] fills the handle's buffer, [tmp.flush()] moves the
    buffer to the file. *)
Definition tmp_write (name : str) (data : bytes) : M unit :=
  fun w => (Ok tt, mkWorld (fs w) (alter (fun buf => buf ++ data) name (handles w)) (trace w)).

Definition tmp_flush (name : str) : M unit :=
  fun w => (Ok tt,
            mkWorld (alter (fun content => content ++ dict_get (handles w) name []) name (fs w))
                    (alter (fun _ => []) name (handles w))
                    (trace w)).

(** Leaving the [with] block closes the handle and unlinks the file. *)
Definition tmp_close (name : str) (w : World) : World :=
  mkWorld (delete name (fs w)) (delete name (handles w)) (trace w).

(** [with NamedTemporaryFile(suffix=ext) as tmp: body]: the exit runs on
    every way out of the body and lets the body's exception through. *)
Definition with_NamedTemporaryFile {A} (suffix : str) (body : str -> M A) : M A :=
  fun w => match NamedTemporaryFile suffix w with
           | (Raise e, w1) => (Raise e, w1)
           | (Ok tmp, w1) => match body tmp w1 with (r, w2) => (r, tmp_close tmp w2) end
           end.

(** The loop that stamps the upload's name on every document. *)
Definition stamp (file : UploadFile) (d : Document) : Document :=
  mkDocument (page_content d)
    (<[py "document_id" := value_of (filename file)]>
       (<[py "source" := value_of (filename file)]> (metadata d))).

(** The body of the [try] statement of [load_file_api]. *)
Definition load_file_api_try (file : UploadFile) : M (list Document) :=
  parts <- lift (splitext_opt (filename file)) ;;
  let ext := parts.2 in
  documents <- with_NamedTemporaryFile ext (fun tmp =>
    data <- lift (read file) ;;
    tmp_write tmp data ;;
    tmp_flush tmp ;;
    emit (logger_trace_tmp tmp) ;;
    load_file tmp) ;;
  ret (map (stamp file) documents).

(** The [except] clauses: [RequestValidationError] is re-raised as it is,
    any other [Exception] is logged and re-raised, and what is not an
    [Exception] matches no clause. *)
Definition load_file_api_except (e : exn) : M (list Document) :=
  if is_RequestValidationError e then raise e
  else if is_Exception e then emit (logger_exception e) ;; raise e
  else raise e.

Definition load_file_api (file : UploadFile) : M (list Document) :=
  emit (logger_info_upload (content_type file) (filename file)) ;;
  try_except (load_file_api_try file) load_file_api_except.

End Loader.

(** * The echo endpoint, [owl/entrypoints/chat_echo.py]

    The request model, [ChatEntry] and its [assistant] constructor come from
    [jamaibase.protocol]; the handler only reads [id], [model] and [stream]
    of the request and serializes it with [model_dump_json]. The clock read
    by the [created] default and the text of a dumped chunk are parameters
    too. *)

(** [CompletionUsage], as the handler fills it. *)
Record CompletionUsage : Type := mkCompletionUsage {
  prompt_tokens : Z;
  completion_tokens : Z;
  total_tokens : Z
}.

Record ChatCompletionChoiceDelta : Type := mkChatCompletionChoiceDelta {
  delta : gmap str str;
  index : Z;
  finish_reason : option str
}.

Section Echo.

Variable ChatCompletionRequest : Type.
Variable request_id : ChatCompletionRequest -> str.
Variable request_model : ChatCompletionRequest -> str.
Variable request_stream : ChatCompletionRequest -> bool.
Variable model_dump_json : ChatCompletionRequest -> str.

Variable ChatEntry : Type.
Variable ChatEntry_assistant : str -> ChatEntry.

(** [int(time())] at the [k]-th response object built for a request. *)
Variable now : nat -> Z.

(** [ChatCompletionChoice], as the handler fills it. *)
Record ChatCompletionChoice : Type := mkChatCompletionChoice {
  choice_index : Z;
  message : ChatEntry;
  choice_finish_reason : option str
}.

Record ChatCompletionResponse : Type := mkChatCompletionResponse {
  response_id : str;
  response_object : str;
  response_created : Z;
  response_model : str;
  choices : list (ChatCompletionChoice + ChatCompletionChoiceDelta);
  usage : option CompletionUsage
}.

(** [str(chunk.model_dump())] *)
Variable model_dump_str : ChatCompletionResponse -> str.

Definition len (output : str) : Z := Z.of_nat (length output).

(** The chunk built at step [i] of the loop over [enumerate(output)]. *)
Definition chunk (body : ChatCompletionRequest) (output : str) (i : nat) (char : Z)
    : ChatCompletionResponse :=
  mkChatCompletionResponse
    (request_id body)
    (py "chat.completion.chunk")
    (now i)
    (request_model body)
    [inr (mkChatCompletionChoiceDelta
            {[ py "content" := [char] ]}
            0
            (if Z.of_nat i <? len output - 1 then None else Some (py "stop")))]
    (Some (mkCompletionUsage (len output) (Z.of_nat i + 1) (len output + Z.of_nat i + 1))).

Definition sse_data (payload : str) : str := py "data: " ++ payload ++ [newline; newline].

(** The generator [stream_response], as the list of what it yields. *)
Definition stream_response (body : ChatCompletionRequest) (output : str) : list str :=
  imap (fun i char => sse_data (model_dump_str (chunk body output i char))) output
  ++ [sse_data (py "[DONE]")].

Inductive Reply : Type :=
| StreamingResponse (content : list str) (media_type : str)
| Returned (response : ChatCompletionResponse).

Definition chat_completion (body : ChatCompletionRequest) : Reply :=
  let output := model_dump_json body in
  if request_stream body then
    StreamingResponse (stream_response body output) (py "text/event-stream")
  else
    Returned
      (mkChatCompletionResponse
         (request_id body)
         (py "chat.completion")
         (now 0)
         (request_model body)
         [inl (mkChatCompletionChoice 0 (ChatEntry_assistant output) (Some (py "stop")))]
         (Some (mkCompletionUsage (len output) (len output) (len output + len output)))).

End Echo.

Arguments mkChatCompletionChoice {ChatEntry} choice_index message choice_finish_reason.
Arguments choice_index {ChatEntry} c.
Arguments message {ChatEntry} c.
Arguments choice_finish_reason {ChatEntry} c.
Arguments mkChatCompletionResponse {ChatEntry}
  response_id response_object response_created response_model choices usage.
Arguments response_id {ChatEntry} c.
Arguments response_object {ChatEntry} c.
Arguments response_created {ChatEntry} c.
Arguments response_model {ChatEntry} c.
Arguments choices {ChatEntry} c.
Arguments usage {ChatEntry} c.
Arguments StreamingResponse {ChatEntry} content media_type.
Arguments Returned {ChatEntry} response.
Arguments chunk {ChatCompletionRequest} request_id request_model {ChatEntry} now
  body output i char.
Arguments stream_response {ChatCompletionRequest} request_id request_model {ChatEntry}
  now model_dump_str body output.
Arguments chat_completion {ChatCompletionRequest}
  request_id request_model request_stream model_dump_json
  {ChatEntry} ChatEntry_assistant now model_dump_str body.

(** ** A concrete environment

    One instance of the parameters, on which the definitions above run:
    [str.isprintable] and [str.lower] as Python has them on Latin-1 and on
    ASCII, and loaders that read the staged file. *)

Module Demo.

(** [chr(c).isprintable()] for [c < 256]; nothing beyond is taken as printable. *)
Definition isprintable (c : Z) : bool :=
  ((32 <=? c) && (c <=? 126)) || ((161 <=? c) && (c <=? 255) && negb (c =? 173)).

(** [str.lower] on ASCII letters; other code points are left alone. *)
Definition lower (s : str) : str :=
  map (fun c => if (65 <=? c) && (c <=? 90) then c + 32 else c) s.

Definition decode (b : bytes) : str := map (fun x => Z.of_N (Byte.to_N x)) b.
Definition encode (s : str) : bytes :=
  omap (fun c => Byte.of_N (Z.to_N c)) s.

(** Rows of a CSV body, split at newlines. *)
Fixpoint lines_from (cur : str) (s : str) : list str :=
  match s with
  | [] => match cur with [] => [] | _ => [reverse cur] end
  | c :: s' => if c =? newline then reverse cur :: lines_from [] s'
               else lines_from (c :: cur) s'
  end.

Definition row_document (file_path : str) (i : nat) (row : str) : Document :=
  mkDocument row {[ py "source" := VStr file_path; py "row" := VInt (Z.of_nat i) ]}.

Definition load (l : Loader) (files : gmap str bytes) : result (list Document) :=
  match l with
  | TextLoader file_path =>
      match files !! file_path with
      | Some content => Ok [mkDocument (decode content) {[ py "source" := VStr file_path ]}]
      | None => Raise (OtherException (py "RuntimeError") (py "Error loading file"))
      end
  | CSVLoader file_path =>
      match files !! file_path with
      | Some content => Ok (imap (row_document file_path) (lines_from [] (decode content)))
      | None => Raise (OtherException (py "RuntimeError") (py "Error loading file"))
      end
  | PDFPlumberLoader file_path =>
      match files !! file_path with
      | Some ((_ :: _) as content) =>
          Ok [mkDocument (decode content)
                {[ py "source" := VStr file_path; py "page" := VInt 1;
                   py "document_id" := VStr (py "internal") ]}]
      | _ => Raise (OtherException (py "PDFSyntaxError") (py "No /Root object"))
      end
  end.

Definition gettempdir : str := py "/tmp".
Definition candidate : str := py "k3x_q0ab".
Definition mkstemp_error (name : str) : option exn := None.

Definition world0 : World := mkWorld ∅ ∅ [].

Definition upload (name : string) (body : str) : UploadFile :=
  mkUploadFile (Some (py name)) (Some (py "application/octet-stream")) (Ok (encode body)).

Definition run (file : UploadFile) : result (list Document) * World :=
  load_file_api isprintable lower load gettempdir candidate mkstemp_error file world0.

Definition documents_of (r : result (list Document)) : list Document :=
  match r with Ok documents => documents | Raise _ => [] end.

(** Three uploads: a scanned page whose loader sets its own identity keys,
    a PDF without content, and a file of a format without loader. *)
Definition scan : UploadFile := upload "scan.PDF" (py "Invoice 7" ++ [12] ++ py "total").
Definition broken : UploadFile := upload "broken.pdf" [].
Definition archive : UploadFile := upload "data.tar.xyz" (py "payload").

End Demo.

(** An instance for the echo endpoint: requests that carry their own
    serialization, and a clock that ticks once per response object. *)
Module EchoDemo.

Record Request : Type := mkRequest {
  rid : str;
  rmodel : str;
  rstream : bool;
  rjson : str
}.

Definition now (k : nat) : Z := 1700000000 + Z.of_nat k.

Definition assistant (content : str) : str * str := (py "assistant", content).

Definition dump (c : ChatCompletionResponse (str * str)) : str :=
  py "{'id': '" ++ response_id c ++ py "'}".

Definition plain : Request := mkRequest (py "r1") (py "echo") false (py "{}").

Definition run (body : Request) : Reply (str * str) :=
  chat_completion rid rmodel rstream rjson assistant now dump body.

End EchoDemo.

(** A PDF loader for front matter, whose pages are numbered in roman
    numerals; the other loaders are those of [Demo]. *)
Module FrontMatter.

Definition load (l : Loader) (files : gmap str bytes) : result (list Document) :=
  match l with
  | PDFPlumberLoader file_path =>
      Ok [mkDocument (py "Preface")
            {[ py "source" := VStr file_path; py "page" := VStr (py "iv") ]}]
  | _ => Demo.load l files
  end.

End FrontMatter.


(** ** Notions used in the statements *)

(** A directory prefix: empty, or ending in the separator. *)
Definition is_dir_prefix (pre : str) : Prop := pre = [] \/ exists d, pre = d ++ [sep].

Definition is_dot (c : Z) : bool := c =? extsep.

(** The extensions [load_file] has a loader for. *)
Definition supported_extensions : list str := [py ".txt"; py ".md"; py ".pdf"; py ".csv"].

(** The outcome of a call, with a function applied to the value returned. *)
Definition result_map {A B} (f : A -> B) (r : result A) : result B :=
  match r with Ok a => Ok (f a) | Raise e => Raise e end.

(** The extension as the specification words it: the substring after the
    last [.] of the path, lower-cased, written with its dot; empty when the
    path has no dot. *)
Definition last_dot_extension (lower : str -> str) (p : str) : str :=
  if rfind p extsep <? 0 then []
  else extsep :: lower (slice_from p (rfind p extsep + 1)).

(** The worlds [load_file_api] goes through: after its first logger call,
    once the temporary file exists, and once the upload is written to it and
    flushed and the file name traced (the world [load_file] starts in). *)
Definition announced (file : UploadFile) (w : World) : World :=
  mkWorld (fs w) (handles w)
          (logger_info_upload (content_type file) (filename file) :: trace w).

Definition created (tmp : str) (w : World) : World :=
  mkWorld (<[tmp := []]> (fs w)) (<[tmp := []]> (handles w)) (trace w).

Definition staged (tmp : str) (data : bytes) (w : World) : World :=
  mkWorld (<[tmp := data]> (fs w)) (<[tmp := []]> (handles w))
          (logger_trace_tmp tmp :: trace w).

(** The page a unit carries, if it carries one, is an integer. *)
Definition page_is_index (u : Document) : Prop :=
  forall v, metadata u !! py "page" = Some v -> is_int v = true.

(** A loader of the same kind for another file. *)
Definition with_file_path (l : Loader) (file_path : str) : Loader :=
  match l with
  | TextLoader _ => TextLoader file_path
  | PDFPlumberLoader _ => PDFPlumberLoader file_path
  | CSVLoader _ => CSVLoader file_path
  end.

(** The chunks a streamed reply is made of, the text each of them carries,
    and the reason with which it finishes. *)
Definition chunk_content {E} (c : ChatCompletionResponse E) : str :=
  match choices c with
  | [inr d] => dict_get (delta d) (py "content") []
  | _ => []
  end.

Definition chunk_finish_reason {E} (c : ChatCompletionResponse E) : option str :=
  match choices c with
  | [inr d] => finish_reason d
  | _ => None
  end.

(** The exceptions passed to [logger.exception], latest first. *)
Definition logged_exceptions (tr : list Event) : list exn :=
  omap (fun ev => match ev with logger_exception e => Some e | _ => None end) tr.



(** * Properties *)

(** ** The sanitizer *)

Section SanitizerFacts.

Variable isprintable : Z -> bool.

Implicit Types (c i : Z) (s : str).

Lemma noprint_keeps c : noprint isprintable c = negb (keeps isprintable c).
Proof. unfold noprint, keeps. by rewrite negb_orb. Qed.

(** The lookup function is the lookup of the dictionary the comprehension builds. *)
Lemma NOPRINT_TRANS_DICT_lookup i :
  NOPRINT_TRANS_DICT isprintable !! i = NOPRINT_TRANS_TABLE isprintable i.
Proof.
  unfold NOPRINT_TRANS_DICT, NOPRINT_TRANS_TABLE.
  set (l := filter _ _).
  assert (Hin : i ∈ l ↔ is_codepoint i && noprint isprintable i = true).
  { unfold l. rewrite list_elem_of_filter, elem_of_seqZ, andb_true_iff.
    unfold is_codepoint, maxunicode. rewrite andb_true_iff, !Z.leb_le.
    split; (intros [? ?]; split; [done || lia | done || lia]). }
  destruct (is_codepoint i && noprint isprintable i) eqn:E.
  - apply elem_of_list_to_map_1.
    + rewrite <- list_fmap_compose. simpl. rewrite list_fmap_id.
      apply NoDup_filter, NoDup_seqZ.
    + apply list_elem_of_fmap. exists i. split; [done | by apply Hin].
  - apply not_elem_of_list_to_map_1.
    rewrite <- list_fmap_compose. simpl. rewrite list_fmap_id.
    intros Hi. apply Hin in Hi. discriminate.
Qed.

(** On any list, [make_printable] is the filter that drops the table's keys. *)
Lemma make_printable_filter_table s :
  make_printable isprintable s = List.filter (fun c => negb (is_codepoint c && noprint isprintable c)) s.
Proof.
  induction s as [| c s IH]; [done |].
  unfold make_printable in *. simpl. unfold NOPRINT_TRANS_TABLE at 1.
  destruct (is_codepoint c && noprint isprintable c); simpl; by rewrite IH.
Qed.

Lemma make_printable_filter s :
  valid_str s -> make_printable isprintable s = List.filter (keeps isprintable) s.
Proof.
  intros Hs. rewrite make_printable_filter_table.
  induction Hs as [| c s Hc Hs IH]; [done |].
  simpl. rewrite Hc. simpl. rewrite noprint_keeps, negb_involutive, IH. done.
Qed.

Lemma make_printable_app s1 s2 :
  make_printable isprintable (s1 ++ s2) = make_printable isprintable s1 ++ make_printable isprintable s2.
Proof. rewrite !make_printable_filter_table. apply List.filter_app. Qed.

Lemma make_printable_newline : make_printable isprintable [newline] = [newline].
Proof.
  unfold make_printable, NOPRINT_TRANS_TABLE, noprint. simpl.
  by destruct (isprintable newline).
Qed.

Lemma make_printable_idempotent s :
  make_printable isprintable (make_printable isprintable s) = make_printable isprintable s.
Proof.
  rewrite !make_printable_filter_table.
  induction s as [| c s IH]; [done |].
  simpl. destruct (negb _) eqn:E; simpl; [rewrite E, IH |]; done.
Qed.

Lemma make_printable_fixed s :
  Forall (fun c => keeps isprintable c = true) s -> make_printable isprintable s = s.
Proof.
  intros Hs. rewrite make_printable_filter_table.
  induction Hs as [| c s Hc Hs IH]; [done |].
  simpl. rewrite noprint_keeps, Hc, andb_false_r, IH. done.
Qed.

Lemma make_printable_valid s : valid_str s -> valid_str (make_printable isprintable s).
Proof.
  intros Hs. rewrite make_printable_filter_table.
  unfold valid_str in *. rewrite List.Forall_forall in *.
  intros c Hc. apply List.filter_In in Hc as [Hc _]. by apply Hs.
Qed.

End SanitizerFacts.

Lemma filter_sublist {A} (f : A -> bool) (l : list A) : sublist (List.filter f l) l.
Proof.
  induction l as [| a l IH]; simpl; [constructor |].
  destruct (f a); by constructor.
Qed.

Lemma keeps_spec (isprintable : Z -> bool) (c : Z) :
  keeps isprintable c = true <-> isprintable c = true \/ c = newline.
Proof. unfold keeps. rewrite orb_true_iff, Z.eqb_eq. done. Qed.

(** C1. On a string of code points, [make_printable] returns the string with
    exactly the code points deleted that are neither printable nor the
    newline: the result is the filter of the input by "printable or
    newline", so it holds no other code point, every kept code point stays
    in its place and nothing is put where one was deleted. *)
Theorem make_printable_deletes_exactly_noprint (isprintable : Z -> bool) (s : str) :
  valid_str s ->
  make_printable isprintable s = List.filter (fun c => isprintable c || (c =? newline)) s
  /\ Forall (fun c => isprintable c = true \/ c = newline) (make_printable isprintable s)
  /\ (forall c, In c (make_printable isprintable s) <->
                In c s /\ (isprintable c = true \/ c = newline))
  /\ sublist (make_printable isprintable s) s.
Proof.
  intros Hs. pose proof (make_printable_filter isprintable s Hs) as E.
  unfold keeps in E. rewrite E. split; [done | split; [| split]].
  - apply List.Forall_forall. intros c Hc. apply List.filter_In in Hc as [_ Hc].
    by apply keeps_spec.
  - intros c. rewrite List.filter_In. by rewrite <- keeps_spec.
  - apply filter_sublist.
Qed.

Lemma make_printable_deletes_exactly_noprint_witness :
  make_printable Demo.isprintable [104; 0; 105; 10; 12; 173; 233; 127; 106]
  = [104; 105; 10; 233; 106].
Proof.
  assert (H : valid_str [104; 0; 105; 10; 12; 173; 233; 127; 106])
    by (repeat constructor).
  rewrite (proj1 (make_printable_deletes_exactly_noprint Demo.isprintable _ H)).
  reflexivity.
Defined.

Lemma make_printable_count_newline (isprintable : Z -> bool) (s : str) :
  count_occ Z.eq_dec (make_printable isprintable s) newline = count_occ Z.eq_dec s newline.
Proof.
  rewrite make_printable_filter_table.
  induction s as [| c s IH]; [done |].
  cbn [List.filter count_occ]. destruct (Z.eq_dec c newline) as [-> | Hne].
  - assert (E : noprint isprintable newline = false).
    { unfold noprint. rewrite Z.eqb_refl. apply andb_false_r. }
    rewrite E, andb_false_r. cbn [negb count_occ].
    destruct (Z.eq_dec newline newline); [by rewrite IH | done].
  - destruct (negb _); cbn [count_occ]; [| done].
    destruct (Z.eq_dec c newline); [done | by rewrite IH].
Qed.

(** C6. [make_printable] is idempotent, it never removes a newline (each
    newline of the input is in the output, at its place between the
    sanitized parts around it, so their number is unchanged), and a string
    made of printable ASCII characters (U+0020 to U+007E, which
    [str.isprintable] accepts) and newlines is returned as it is. *)
Theorem make_printable_idempotent_newline_ascii (isprintable : Z -> bool) :
  (forall x, make_printable isprintable (make_printable isprintable x)
             = make_printable isprintable x)
  /\ (forall s1 s2, make_printable isprintable (s1 ++ newline :: s2)
                    = make_printable isprintable s1 ++ newline :: make_printable isprintable s2)
  /\ (forall s, count_occ Z.eq_dec (make_printable isprintable s) newline
                = count_occ Z.eq_dec s newline)
  /\ ((forall c, 32 <= c <= 126 -> isprintable c = true) ->
      forall s, Forall (fun c => 32 <= c <= 126 \/ c = newline) s ->
                make_printable isprintable s = s).
Proof.
  split; [| split; [| split]].
  - apply make_printable_idempotent.
  - intros s1 s2.
    change (newline :: s2) with ([newline] ++ s2).
    rewrite !make_printable_app, make_printable_newline. done.
  - apply make_printable_count_newline.
  - intros Hascii s Hs. apply make_printable_fixed.
    eapply Forall_impl; [exact Hs |].
    intros c [Hc | ->]; apply keeps_spec; [left; by apply Hascii | by right].
Qed.

Lemma Demo_isprintable_ascii c : 32 <= c <= 126 -> Demo.isprintable c = true.
Proof.
  intros [H1 H2]. unfold Demo.isprintable.
  apply Z.leb_le in H1, H2. by rewrite H1, H2.
Qed.

Lemma make_printable_idempotent_newline_ascii_witness :
  make_printable Demo.isprintable [72; 105; 10; 10; 126; 32; 33]
  = [72; 105; 10; 10; 126; 32; 33].
Proof.
  apply (proj2 (proj2 (proj2 (make_printable_idempotent_newline_ascii Demo.isprintable)))).
  - exact Demo_isprintable_ascii.
  - repeat constructor; lia.
Defined.

(** ** [rfind] and [splitext] *)

Section SplitextFacts.

Implicit Types (c x : Z) (p s f e pre : str).

Lemma rfind_from_app c s1 s2 i found :
  rfind_from c (s1 ++ s2) i found
  = rfind_from c s2 (i + Z.of_nat (length s1)) (rfind_from c s1 i found).
Proof.
  revert i found. induction s1 as [| x s1 IH]; intros i found; simpl.
  - by rewrite Z.add_0_r.
  - rewrite IH. f_equal. lia.
Qed.

Lemma rfind_from_notin c s i found : c ∉ s -> rfind_from c s i found = found.
Proof.
  revert i found. induction s as [| x s IH]; intros i found Hc; simpl; [done |].
  apply not_elem_of_cons in Hc as [Hx Hs].
  rewrite IH by done. destruct (Z.eqb_spec x c); congruence.
Qed.

Lemma rfind_from_lt c s i found :
  found < i -> rfind_from c s i found < i + Z.of_nat (length s).
Proof.
  revert i found. induction s as [| x s IH]; intros i found Hf; simpl; [lia |].
  specialize (IH (i + 1) (if x =? c then i else found)).
  destruct (x =? c); lia.
Qed.

Lemma rfind_notin c s : c ∉ s -> rfind s c = -1.
Proof. apply rfind_from_notin. Qed.

Lemma rfind_lt c s : rfind s c < Z.of_nat (length s).
Proof. unfold rfind. pose proof (rfind_from_lt c s 0 (-1)). lia. Qed.

Lemma rfind_last c s1 s2 : c ∉ s2 -> rfind (s1 ++ c :: s2) c = Z.of_nat (length s1).
Proof.
  intros Hc. unfold rfind. rewrite rfind_from_app. simpl.
  rewrite Z.eqb_refl. by apply rfind_from_notin.
Qed.

Lemma rfind_app_notin c s1 s2 : c ∉ s2 -> rfind (s1 ++ s2) c = rfind s1 c.
Proof. intros Hc. unfold rfind. rewrite rfind_from_app. by apply rfind_from_notin. Qed.

Lemma rfind_sep_prefix pre f :
  is_dir_prefix pre -> sep ∉ f -> rfind (pre ++ f) sep = Z.of_nat (length pre) - 1.
Proof.
  intros [-> | [d ->]] Hf.
  - simpl. by apply rfind_notin.
  - rewrite <- app_assoc. simpl. rewrite rfind_last by done.
    rewrite length_app. simpl. lia.
Qed.

Lemma rfind_other_prefix c pre f :
  is_dir_prefix pre -> c ∉ f -> rfind (pre ++ f) c <= Z.of_nat (length pre) - 1.
Proof.
  intros Hpre Hf. rewrite rfind_app_notin by done.
  pose proof (rfind_lt c pre). lia.
Qed.

(** Every path splits into a directory prefix and a last component. *)
Lemma path_components p :
  exists pre f, p = pre ++ f /\ is_dir_prefix pre /\ sep ∉ f.
Proof.
  induction p as [| x p IH] using rev_ind.
  - exists [], []. repeat split; [by left | apply not_elem_of_nil].
  - destruct (decide (x = sep)) as [-> | Hx].
    + exists (p ++ [sep]), []. rewrite app_nil_r.
      repeat split; [right; by exists p | apply not_elem_of_nil].
    + destruct IH as (pre & f & -> & Hpre & Hf).
      exists pre, (f ++ [x]). rewrite app_assoc. repeat split; [done |].
      rewrite not_elem_of_app, not_elem_of_cons. repeat split; auto using not_elem_of_nil.
Qed.

(** A component splits at its last dot, if it has one. *)
Lemma last_dot f :
  extsep ∉ f \/ exists f1 e, f = f1 ++ extsep :: e /\ extsep ∉ e.
Proof.
  induction f as [| x f IH] using rev_ind; [left; apply not_elem_of_nil |].
  destruct (decide (x = extsep)) as [-> | Hx].
  - right. exists f, []. split; [done | apply not_elem_of_nil].
  - destruct IH as [Hf | (f1 & e & -> & He)].
    + left. rewrite not_elem_of_app, not_elem_of_cons. auto using not_elem_of_nil.
    + right. exists f1, (e ++ [x]). rewrite <- app_assoc. split; [done |].
      rewrite not_elem_of_app, not_elem_of_cons. auto using not_elem_of_nil.
Qed.

(** The loop over the characters [g] between the start of the component
    and its last dot. *)
Lemma skip_leading_dots_spec p a g rest :
  p = a ++ g ++ rest ->
  skip_leading_dots p (Z.of_nat (length a + length g)) (length g) (Z.of_nat (length a))
  = if forallb is_dot g then (p, [])
    else (take (length a + length g) p, drop (length a + length g) p).
Proof.
  revert a. induction g as [| x g IH]; intros a Hp; [done |].
  cbn [skip_leading_dots length forallb].
  destruct (Z.ltb_spec (Z.of_nat (length a)) (Z.of_nat (length a + S (length g)))); [| lia].
  assert (Hslice : slice p (Z.of_nat (length a)) (Z.of_nat (length a) + 1) = [x]).
  { unfold slice. replace (Z.of_nat (length a) + 1 - Z.of_nat (length a)) with 1 by lia.
    rewrite Nat2Z.id, Hp, drop_app_length. done. }
  rewrite Hslice. unfold str_eqb, is_dot.
  destruct (Z.eqb_spec x extsep) as [-> | Hx].
  - rewrite bool_decide_eq_true_2 by done. cbn [negb andb].
    specialize (IH (a ++ [extsep])).
    rewrite length_app in IH. cbn [length] in IH.
    replace (Z.of_nat (length a) + 1) with (Z.of_nat (length a + 1)%nat) by lia.
    replace (length a + S (length g))%nat with (length a + 1 + length g)%nat by lia.
    apply IH. rewrite Hp, <- app_assoc. done.
  - rewrite bool_decide_eq_false_2 by congruence. cbn [negb andb].
    unfold slice_to, slice_from. by rewrite Nat2Z.id.
Qed.

(** [splitext] on a path given by its directory prefix and last component. *)
Lemma splitext_no_dot pre f :
  is_dir_prefix pre -> sep ∉ f -> extsep ∉ f ->
  splitext (pre ++ f) = (pre ++ f, []).
Proof.
  intros Hpre Hs Hd. unfold splitext.
  rewrite (rfind_sep_prefix pre f) by done.
  pose proof (rfind_other_prefix extsep pre f Hpre Hd).
  destruct (Z.ltb_spec (Z.of_nat (length pre) - 1) (rfind (pre ++ f) extsep)); [lia | done].
Qed.

Lemma splitext_last_dot pre f1 e :
  is_dir_prefix pre -> sep ∉ f1 -> sep ∉ e -> extsep ∉ e ->
  splitext (pre ++ f1 ++ extsep :: e)
  = if forallb is_dot f1 then (pre ++ f1 ++ extsep :: e, [])
    else (pre ++ f1, extsep :: e).
Proof.
  intros Hpre Hs1 Hs2 Hd. unfold splitext.
  assert (Hsep : sep ∉ f1 ++ extsep :: e).
  { rewrite not_elem_of_app, not_elem_of_cons. repeat split; [done | done | done]. }
  rewrite (rfind_sep_prefix pre _ Hpre Hsep).
  rewrite (app_assoc pre f1), rfind_last by done.
  rewrite length_app.
  destruct (Z.ltb_spec (Z.of_nat (length pre) - 1) (Z.of_nat (length pre + length f1))); [| lia].
  replace (Z.of_nat (length pre) - 1 + 1) with (Z.of_nat (length pre)) by lia.
  replace (Z.to_nat (Z.of_nat (length pre + length f1) - Z.of_nat (length pre)))
    with (length f1) by lia.
  rewrite (skip_leading_dots_spec _ pre f1 (extsep :: e)) by (by rewrite <- app_assoc).
  destruct (forallb is_dot f1); [done |].
  rewrite <- length_app, take_app_length, drop_app_length. done.
Qed.

End SplitextFacts.

(** The extension [splitext] returns is empty, or it is a dot followed by
    characters that are neither dots nor separators; in both cases root and
    extension concatenate to the path. *)
Lemma splitext_ext_shape (p : str) :
  (splitext p).1 ++ (splitext p).2 = p
  /\ ((splitext p).2 = [] \/
      exists e, (splitext p).2 = extsep :: e /\ (extsep ∉ e) /\ (sep ∉ e)).
Proof.
  destruct (path_components p) as (pre & f & -> & Hpre & Hf).
  destruct (last_dot f) as [Hd | (f1 & e & -> & He)].
  - rewrite splitext_no_dot by done. simpl. rewrite app_nil_r. auto.
  - apply not_elem_of_app in Hf as [Hf1 Hf2].
    apply not_elem_of_cons in Hf2 as [_ Hf2].
    rewrite splitext_last_dot by done.
    destruct (forallb is_dot f1); simpl.
    + rewrite app_nil_r. auto.
    + rewrite <- app_assoc. split; [done |]. right. by exists e.
Qed.

(** A non-empty extension is the substring from the last dot of the path. *)
Lemma splitext_ext_from_last_dot (p : str) :
  (splitext p).2 <> [] -> (splitext p).2 = slice_from p (rfind p extsep).
Proof.
  destruct (path_components p) as (pre & f & -> & Hpre & Hf).
  destruct (last_dot f) as [Hd | (f1 & e & -> & He)].
  - rewrite splitext_no_dot by done. done.
  - apply not_elem_of_app in Hf as [Hf1 Hf2].
    apply not_elem_of_cons in Hf2 as [_ Hf2].
    rewrite splitext_last_dot by done.
    destruct (forallb is_dot f1); simpl; [done |]. intros _.
    rewrite (app_assoc pre f1), rfind_last by done.
    unfold slice_from. by rewrite Nat2Z.id, drop_app_length.
Qed.

(** Paths without a dot, and paths whose last component is a dot file. *)
Lemma splitext_no_dot_at_all (p : str) : extsep ∉ p -> (splitext p).2 = [].
Proof.
  intros Hp. destruct (path_components p) as (pre & f & -> & Hpre & Hf).
  apply not_elem_of_app in Hp as [_ Hp]. by rewrite splitext_no_dot.
Qed.

Lemma splitext_dotfile (pre name : str) :
  is_dir_prefix pre -> extsep ∉ name -> sep ∉ name ->
  (splitext (pre ++ extsep :: name)).2 = [].
Proof.
  intros Hpre Hd Hs.
  pose proof (splitext_last_dot pre [] name Hpre (not_elem_of_nil _) Hs Hd) as E.
  simpl in E. by rewrite E.
Qed.

(** The name of the staged file keeps the extension of the upload. *)
Lemma tempfile_characters_no_sep (c : Z) :
  c ∈ tempfile_characters -> c <> sep /\ c <> extsep.
Proof.
  intros Hc. split; intros ->; revert Hc.
  - apply (bool_decide_eq_false_1 (sep ∈ tempfile_characters)). by vm_compute.
  - apply (bool_decide_eq_false_1 (extsep ∈ tempfile_characters)). by vm_compute.
Qed.

Lemma join_dir_prefix (a b : str) (c : Z) :
  c <> sep -> exists pre, join a (c :: b) = pre ++ c :: b /\ is_dir_prefix pre.
Proof.
  intros Hc. unfold join. destruct (Z.eqb_spec c sep) as [| _]; [done |].
  destruct (last a) as [l |] eqn:El.
  - apply last_Some in El as [d ->].
    destruct (Z.eqb_spec l sep) as [-> | _].
    + exists (d ++ [sep]). split; [done | right; by exists d].
    + exists ((d ++ [l]) ++ [sep]). rewrite <- !app_assoc. split; [done |].
      right. exists (d ++ [l]). by rewrite <- app_assoc.
  - apply last_None in El as ->. exists []. split; [done | by left].
Qed.

Lemma splitext_tmp_name (gettempdir candidate name : str) :
  Forall (fun c => c ∈ tempfile_characters) candidate ->
  (splitext (tmp_name gettempdir candidate (splitext name).2)).2 = (splitext name).2.
Proof.
  intros Hcand. unfold tmp_name.
  assert (Hns : (sep ∉ py "tmp" ++ candidate) /\ (extsep ∉ py "tmp" ++ candidate)).
  { rewrite Forall_forall in Hcand.
    split; rewrite not_elem_of_app; split.
    - apply (bool_decide_eq_false_1 (sep ∈ py "tmp")). by vm_compute.
    - intros Hin. apply Hcand in Hin. by apply tempfile_characters_no_sep in Hin as [? ?].
    - apply (bool_decide_eq_false_1 (extsep ∈ py "tmp")). by vm_compute.
    - intros Hin. apply Hcand in Hin. by apply tempfile_characters_no_sep in Hin as [? ?]. }
  destruct Hns as [Hs Hd].
  destruct (join_dir_prefix gettempdir (py "mp" ++ candidate ++ (splitext name).2) 116)
    as (pre & E & Hpre); [done |].
  change (py "tmp" ++ candidate ++ (splitext name).2)
    with (116 :: py "mp" ++ candidate ++ (splitext name).2).
  rewrite E.
  change (116 :: py "mp" ++ candidate ++ (splitext name).2)
    with (py "tmp" ++ candidate ++ (splitext name).2).
  destruct (splitext_ext_shape name) as [_ [-> | (e & -> & He1 & He2)]].
  - rewrite app_nil_r. by rewrite splitext_no_dot.
  - rewrite (app_assoc (py "tmp")).
    by rewrite (splitext_last_dot pre (py "tmp" ++ candidate) e).
Qed.

(** ** [load_file] *)

Section LoadFileFacts.

Variable isprintable : Z -> bool.
Variable lower : str -> str.
Variable load : Loader -> gmap str bytes -> result (list Document).

Implicit Types (p : str) (w : World) (l : Loader) (d u : Document).

(** The three ways through [load_file]. *)
Lemma load_file_unfold p w :
  load_file isprintable lower load p w =
  match select_loader lower p with
  | Raise e => (Raise e, w)
  | Ok l =>
      match load l (fs w) with
      | Raise e => (Raise e, mkWorld (fs w) (handles w) (loader_load l :: trace w))
      | Ok documents =>
          (Ok (map (normalize isprintable) documents),
           mkWorld (fs w) (handles w)
                   (logger_info_docio documents :: loader_load l :: trace w))
      end
  end.
Proof.
  unfold load_file, bind, lift, Loader_load, emit, ret.
  destruct (select_loader lower p) as [l | e]; [| done].
  simpl. by destruct (load l (fs w)).
Qed.


Lemma select_loader_supported p :
  let ext := lower (splitext p).2 in
  (ext = py ".txt" \/ ext = py ".md" -> select_loader lower p = Ok (TextLoader p))
  /\ (ext = py ".pdf" -> select_loader lower p = Ok (PDFPlumberLoader p))
  /\ (ext = py ".csv" -> select_loader lower p = Ok (CSVLoader p)).
Proof.
  unfold select_loader. repeat split.
  - by intros [-> | ->].
  - by intros ->.
  - by intros ->.
Qed.

Lemma select_loader_unsupported p :
  lower (splitext p).2 ∉ supported_extensions ->
  select_loader lower p
  = Raise (ValueError (py "Unsupported file type: " ++ lower (splitext p).2)).
Proof.
  intros Hext. unfold select_loader, str_eqb.
  unfold supported_extensions in Hext.
  rewrite !not_elem_of_cons in Hext. destruct Hext as (H1 & H2 & H3 & H4 & _).
  rewrite bool_decide_eq_false_2.
  - by rewrite !bool_decide_eq_false_2.
  - rewrite !not_elem_of_cons. repeat split; auto using not_elem_of_nil.
Qed.

Lemma normalize_page u :
  metadata (normalize isprintable u) !! py "page"
  = Some (dict_get (metadata u) (py "page") (VInt 0)).
Proof.
  unfold normalize, dict_get. simpl. rewrite lookup_union.
  rewrite lookup_singleton_eq. by destruct (metadata u !! py "page").
Qed.

Lemma normalize_other u k :
  k <> py "page" -> metadata (normalize isprintable u) !! k = metadata u !! k.
Proof.
  intros Hk. unfold normalize. simpl. rewrite lookup_union.
  rewrite lookup_singleton_ne by done. by destruct (metadata u !! k).
Qed.

End LoadFileFacts.

Lemma load_file_selected isprintable lower load (p : str) (w : World) (l : Loader) :
  select_loader lower p = Ok l ->
  (load_file isprintable lower load p w).1
  = result_map (map (normalize isprintable)) (load l (fs w))
  /\ In (loader_load l) (trace (load_file isprintable lower load p w).2).
Proof.
  intros Hl. rewrite load_file_unfold, Hl.
  destruct (load l (fs w)); simpl; auto.
Qed.

(** C2 (as amended). [load_file] dispatches on [splitext(file_path)[1].lower()].
    With the path split into its directory prefix and its last component,
    the extension [splitext] returns is empty when the last component has
    no dot, and when it has only dots before its last dot; otherwise it is
    the last component from its last dot on, which is the substring of the
    path from its last dot on. When the lower-cased extension is [.txt] or
    [.md] the text loader is selected and loaded, when it is [.pdf] the PDF
    loader, when it is [.csv] the CSV loader, and the outcome of
    [load_file] is that loader's outcome, normalized. For every other
    extension [load_file] raises [ValueError] with the extension in its
    message and leaves the world as it was: no loader is called, nothing is
    logged, no document is produced. *)
Theorem load_file_dispatch isprintable lower load (p : str) (w : World) :
  let ext := lower (splitext p).2 in
  let run := load_file isprintable lower load p w in
  let selects l :=
    select_loader lower p = Ok l
    /\ run.1 = result_map (map (normalize isprintable)) (load l (fs w))
    /\ In (loader_load l) (trace run.2) in
  (exists pre f,
     p = pre ++ f /\ is_dir_prefix pre /\ (sep ∉ f)
     /\ ((extsep ∉ f) \/ exists f1 e, f = f1 ++ extsep :: e /\ (extsep ∉ e)))
  /\ (forall pre f,
        p = pre ++ f -> is_dir_prefix pre -> sep ∉ f ->
        (extsep ∉ f -> (splitext p).2 = [])
        /\ (forall f1 e, f = f1 ++ extsep :: e -> extsep ∉ e ->
              (splitext p).2 = if forallb is_dot f1 then [] else extsep :: e))
  /\ ((splitext p).2 = [] \/ (splitext p).2 = slice_from p (rfind p extsep))
  /\ (ext = py ".txt" \/ ext = py ".md" -> selects (TextLoader p))
  /\ (ext = py ".pdf" -> selects (PDFPlumberLoader p))
  /\ (ext = py ".csv" -> selects (CSVLoader p))
  /\ (ext ∉ supported_extensions ->
      run = (Raise (ValueError (py "Unsupported file type: " ++ ext)), w)).
Proof.
  intros ext run selects.
  destruct (select_loader_supported lower p) as (Htxt & Hpdf & Hcsv).
  split; [| split; [| split; [| split; [| split; [| split]]]]].
  - destruct (path_components p) as (pre & f & Hp & Hpre & Hf).
    exists pre, f. split; [done |]. split; [done |]. split; [done |]. apply last_dot.
  - intros pre f -> Hpre Hf. split.
    + intros Hd. by rewrite splitext_no_dot.
    + intros f1 e -> He.
      apply not_elem_of_app in Hf as [Hf1 Hf2].
      apply not_elem_of_cons in Hf2 as [_ Hf2].
      rewrite splitext_last_dot by done. by destruct (forallb is_dot f1).
  - destruct (decide ((splitext p).2 = [])) as [| Hne]; [by left | right].
    by apply splitext_ext_from_last_dot.
  - intros H. split; [by apply Htxt | by apply load_file_selected, Htxt].
  - intros H. split; [by apply Hpdf | by apply load_file_selected, Hpdf].
  - intros H. split; [by apply Hcsv | by apply load_file_selected, Hcsv].
  - intros H. unfold run. rewrite load_file_unfold.
    by rewrite select_loader_unsupported.
Qed.

Lemma load_file_dispatch_witness :
  select_loader Demo.lower (py "/srv/in/Notes.TXT") = Ok (TextLoader (py "/srv/in/Notes.TXT"))
  /\ load_file Demo.isprintable Demo.lower Demo.load (py "data.xyz") Demo.world0
     = (Raise (ValueError (py "Unsupported file type: .xyz")), Demo.world0)
  /\ (splitext (py "/srv/in/.txt")).2 = []
  /\ load_file Demo.isprintable Demo.lower Demo.load (py "/srv/in/.txt") Demo.world0
     = (Raise (ValueError (py "Unsupported file type: ")), Demo.world0)
  /\ (splitext (py "/srv/v1.2/..x.tar.PDF")).2 = py ".PDF".
Proof.
  split; [| split].
  - apply (load_file_dispatch Demo.isprintable Demo.lower Demo.load
             (py "/srv/in/Notes.TXT") Demo.world0).
    left. reflexivity.
  - apply (load_file_dispatch Demo.isprintable Demo.lower Demo.load
             (py "data.xyz") Demo.world0).
    apply (bool_decide_eq_false_1 _). reflexivity.
  - destruct (load_file_dispatch Demo.isprintable Demo.lower Demo.load
                (py "/srv/in/.txt") Demo.world0) as (_ & Hext & _ & _ & _ & _ & Hother).
    assert (E : (splitext (py "/srv/in/.txt")).2 = []).
    { refine (proj2 (Hext (py "/srv/in/") (py ".txt") eq_refl _ _) [] (py "txt") eq_refl _).
      - right. by exists (py "/srv/in").
      - apply (bool_decide_eq_false_1 _). reflexivity.
      - apply (bool_decide_eq_false_1 _). reflexivity. }
    split; [exact E |]. split.
    + rewrite Hother; rewrite E; [reflexivity |].
      apply (bool_decide_eq_false_1 _). reflexivity.
    + destruct (load_file_dispatch Demo.isprintable Demo.lower Demo.load
                  (py "/srv/v1.2/..x.tar.PDF") Demo.world0) as (_ & Hext2 & _).
      refine (proj2 (Hext2 (py "/srv/v1.2/") (py "..x.tar.PDF") eq_refl _ _)
                (py "..x.tar") (py "PDF") eq_refl _).
      * right. by exists (py "/srv/v1.2").
      * apply (bool_decide_eq_false_1 _). reflexivity.
      * apply (bool_decide_eq_false_1 _). reflexivity.
Defined.

(** C2 as stated fails: the substring after the last dot of [.txt] is
    [txt], yet no loader is selected for that path. *)
Lemma load_file_last_dot_counterexample :
  ~ (forall p : str,
       last_dot_extension Demo.lower p = py ".txt" ->
       select_loader Demo.lower p = Ok (TextLoader p)).
Proof.
  intros H. specialize (H (py ".txt") eq_refl). vm_compute in H. discriminate.
Qed.

(** C10. A path without a dot, a path whose last component is a dot file
    (a dot followed by a name without dots), and more generally every path
    for which [splitext] yields the empty extension, makes [load_file]
    raise [ValueError] with the empty extension in its message; the text
    after the leading dot is not taken as the extension. *)
Theorem load_file_no_extension isprintable lower load (p : str) (w : World) :
  lower [] = [] ->
  (extsep ∉ p)
  \/ (exists pre name, p = pre ++ extsep :: name /\ is_dir_prefix pre
                      /\ (extsep ∉ name) /\ (sep ∉ name))
  \/ (splitext p).2 = [] ->
  (splitext p).2 = []
  /\ load_file isprintable lower load p w
     = (Raise (ValueError (py "Unsupported file type: ")), w).
Proof.
  intros Hlower Hp.
  assert (E : (splitext p).2 = []).
  { destruct Hp as [Hp | [(pre & name & -> & Hpre & Hd & Hs) | Hp]].
    - by apply splitext_no_dot_at_all.
    - by apply splitext_dotfile.
    - done. }
  split; [done |].
  rewrite load_file_unfold. unfold select_loader. by rewrite E, Hlower.
Qed.

Lemma load_file_no_extension_witness :
  (splitext (py "/home/u/.bashrc")).2 = []
  /\ load_file Demo.isprintable Demo.lower Demo.load (py "/home/u/.bashrc") Demo.world0
     = (Raise (ValueError (py "Unsupported file type: ")), Demo.world0).
Proof.
  apply load_file_no_extension; [reflexivity |].
  right. left. exists (py "/home/u/"), (py "bashrc").
  split; [reflexivity |]. split; [right; by exists (py "/home/u") |].
  split; apply (bool_decide_eq_false_1 _); reflexivity.
Defined.

(** What [load_file] returns when it returns: the loader's units, normalized
    one by one. *)
Lemma load_file_Ok_inv isprintable lower load (p : str) (w : World) documents :
  (load_file isprintable lower load p w).1 = Ok documents ->
  exists l units,
    select_loader lower p = Ok l /\ load l (fs w) = Ok units
    /\ documents = map (normalize isprintable) units.
Proof.
  rewrite load_file_unfold.
  destruct (select_loader lower p) as [l | e]; [| done].
  destruct (load l (fs w)) as [units | e] eqn:E; [| done].
  simpl. intros [= <-]. by exists l, units.
Qed.

(** C3 (as amended). Every document [load_file] returns has a [page] key
    in its metadata. Its value is the [page] of the unit the document was
    made from when that unit has one, copied as it is, and the integer 0
    otherwise; so it is an integer exactly when the unit has no page or an
    integer page. *)
Theorem load_file_page_key isprintable lower load (p : str) (w : World) documents :
  (load_file isprintable lower load p w).1 = Ok documents ->
  exists l units,
    select_loader lower p = Ok l /\ load l (fs w) = Ok units
    /\ length documents = length units
    /\ forall (i : nat) d, documents !! i = Some d ->
       exists u, units !! i = Some u
         /\ metadata d !! py "page" = Some (default (VInt 0) (metadata u !! py "page"))
         /\ (forall v, metadata u !! py "page" = Some v -> metadata d !! py "page" = Some v)
         /\ (metadata u !! py "page" = None -> metadata d !! py "page" = Some (VInt 0))
         /\ ((exists z, metadata d !! py "page" = Some (VInt z)) <-> page_is_index u).
Proof.
  intros Hrun.
  destruct (load_file_Ok_inv _ _ _ _ _ _ Hrun) as (l & units & Hl & Hunits & ->).
  exists l, units. repeat split; [done | done | by rewrite length_map |].
  intros i d Hd. rewrite list_lookup_fmap in Hd.
  destruct (units !! i) as [u |] eqn:Eu; [| done].
  simpl in Hd. injection Hd as <-. exists u. split; [done |].
  rewrite normalize_page. unfold dict_get, page_is_index.
  destruct (metadata u !! py "page") as [v |]; simpl.
  - split; [done |]. split; [by intros ? [= <-] |]. split; [done |]. split.
    + intros [z [= ->]] v' [= <-]. done.
    + intros Hint. specialize (Hint v eq_refl). destruct v; try done. by eexists.
  - split; [done |]. split; [done |]. split; [done |]. split; [done |].
    intros _. by eexists.
Qed.

Lemma Demo_load_csv :
  (load_file Demo.isprintable Demo.lower Demo.load (py "/in/t.csv")
     (mkWorld {[ py "/in/t.csv" := Demo.encode (py "a,b" ++ [newline] ++ py "c,d") ]} ∅ [])).1
  = Ok [ mkDocument (py "a,b")
           ({[ py "source" := VStr (py "/in/t.csv"); py "row" := VInt 0 ]}
              ∪ {[ py "page" := VInt 0 ]});
         mkDocument (py "c,d")
           ({[ py "source" := VStr (py "/in/t.csv"); py "row" := VInt 1 ]}
              ∪ {[ py "page" := VInt 0 ]}) ].
Proof. by vm_compute. Qed.

Lemma FrontMatter_load_pdf :
  (load_file Demo.isprintable Demo.lower FrontMatter.load (py "/in/book.pdf") Demo.world0).1
  = Ok [ normalize Demo.isprintable
           (mkDocument (py "Preface")
              {[ py "source" := VStr (py "/in/book.pdf"); py "page" := VStr (py "iv") ]}) ].
Proof. by vm_compute. Qed.

Lemma load_file_page_key_witness :
  (exists d u,
     Demo.documents_of
       (load_file Demo.isprintable Demo.lower Demo.load (py "/in/t.csv")
          (mkWorld {[ py "/in/t.csv" := Demo.encode (py "a,b" ++ [newline] ++ py "c,d") ]} ∅ [])).1
       !! 1%nat = Some d
     /\ metadata u !! py "page" = None
     /\ metadata d !! py "page" = Some (VInt 0))
  /\ (exists d u,
        Demo.documents_of
          (load_file Demo.isprintable Demo.lower FrontMatter.load (py "/in/book.pdf")
             Demo.world0).1 !! 0%nat = Some d
        /\ metadata u !! py "page" = Some (VStr (py "iv"))
        /\ metadata d !! py "page" = Some (VStr (py "iv"))
        /\ ~ page_is_index u).
Proof.
  split.
  - destruct (load_file_page_key _ _ _ _ _ _ Demo_load_csv)
      as (l & units & Hl & Hu & Hlen & Hall).
    destruct (Hall 1%nat _ eq_refl) as (u & Hi & _ & _ & Hnone & _).
    assert (Hpage : metadata u !! py "page" = None).
    { vm_compute in Hl. injection Hl as <-.
      vm_compute in Hu. injection Hu as <-.
      vm_compute in Hi. by injection Hi as <-. }
    eexists _, u. split; [by vm_compute |]. split; [exact Hpage |].
    exact (Hnone Hpage).
  - destruct (load_file_page_key _ _ _ _ _ _ FrontMatter_load_pdf)
      as (l & units & Hl & Hu & Hlen & Hall).
    destruct (Hall 0%nat _ eq_refl) as (u & Hi & _ & Hsome & _ & Hint).
    assert (Hpage : metadata u !! py "page" = Some (VStr (py "iv"))).
    { vm_compute in Hl. injection Hl as <-.
      vm_compute in Hu. injection Hu as <-.
      vm_compute in Hi. by injection Hi as <-. }
    eexists _, u. split; [by vm_compute |]. split; [exact Hpage |].
    split; [exact (Hsome _ Hpage) |].
    intros Hidx. apply Hint in Hidx as [z Hz].
    rewrite (Hsome _ Hpage) in Hz. discriminate.
Defined.

(** C3 as stated fails: a unit whose page is the string [iv] gives a
    document whose page is that string, not an integer. *)
Lemma load_file_page_integer_counterexample :
  ~ (forall (load : Loader -> gmap str bytes -> result (list Document))
            (p : str) (w : World) documents d,
       (load_file Demo.isprintable Demo.lower load p w).1 = Ok documents ->
       In d documents ->
       exists z, metadata d !! py "page" = Some (VInt z)).
Proof.
  intros H.
  destruct (H FrontMatter.load (py "/in/book.pdf") Demo.world0 _ _
              FrontMatter_load_pdf (or_introl eq_refl)) as [z Hz].
  vm_compute in Hz. discriminate.
Qed.

(** C5. When the selected loader yields [n] units, [load_file] returns [n]
    documents, and the one at position [i] is the normalization of the unit
    at position [i]: its text is the unit's text sanitized, its metadata the
    unit's metadata over the default page. *)
Theorem load_file_preserves_order isprintable lower load (p : str) (w : World)
    (l : Loader) (units : list Document) :
  select_loader lower p = Ok l ->
  load l (fs w) = Ok units ->
  exists documents,
    (load_file isprintable lower load p w).1 = Ok documents
    /\ length documents = length units
    /\ (forall i : nat, documents !! i = normalize isprintable <$> units !! i)
    /\ forall (i : nat) u, units !! i = Some u ->
       exists d, documents !! i = Some d
         /\ page_content d = make_printable isprintable (page_content u)
         /\ metadata d = metadata u ∪ {[ py "page" := dict_get (metadata u) (py "page") (VInt 0) ]}.
Proof.
  intros Hl Hu. exists (map (normalize isprintable) units).
  split; [| split; [| split]].
  - by rewrite load_file_unfold, Hl, Hu.
  - by rewrite length_map.
  - intros i. by rewrite list_lookup_fmap.
  - intros i u Hi. exists (normalize isprintable u).
    rewrite list_lookup_fmap, Hi. done.
Qed.

Lemma load_file_preserves_order_witness :
  exists documents,
    (load_file Demo.isprintable Demo.lower Demo.load (py "/in/t.csv")
       (mkWorld {[ py "/in/t.csv" := Demo.encode (py "a,b" ++ [newline] ++ py "c,d") ]} ∅ [])).1
    = Ok documents
    /\ page_content <$> documents = [py "a,b"; py "c,d"].
Proof.
  assert (Hl : select_loader Demo.lower (py "/in/t.csv") = Ok (CSVLoader (py "/in/t.csv")))
    by reflexivity.
  assert (Hu : Demo.load (CSVLoader (py "/in/t.csv"))
                 (fs (mkWorld {[ py "/in/t.csv" := Demo.encode (py "a,b" ++ [newline] ++ py "c,d") ]} ∅ []))
               = Ok (imap (Demo.row_document (py "/in/t.csv")) [py "a,b"; py "c,d"]))
    by (vm_compute; reflexivity).
  destruct (load_file_preserves_order Demo.isprintable Demo.lower Demo.load _ _ _ _ Hl Hu)
    as (documents & Hrun & _ & Hidx & _).
  exists documents. split; [exact Hrun |].
  apply list_eq. intros i. rewrite list_lookup_fmap, Hidx.
  destruct i as [| [| i]]; reflexivity.
Defined.

(** ** [load_file_api] *)

Section LoadFileApiFacts.

Variable isprintable : Z -> bool.
Variable lower : str -> str.
Variable load : Loader -> gmap str bytes -> result (list Document).
Variable gettempdir : str.
Variable candidate : str.
Variable mkstemp_error : str -> option exn.

Implicit Types (file : UploadFile) (w : World) (e : exn) (name tmp : str).

Lemma load_file_api_except_spec e w :
  (load_file_api_except e w).1 = Raise e
  /\ fs (load_file_api_except e w).2 = fs w
  /\ handles (load_file_api_except e w).2 = handles w
  /\ (is_Exception e && negb (is_RequestValidationError e) = true ->
      trace (load_file_api_except e w).2 = logger_exception e :: trace w).
Proof.
  unfold load_file_api_except. by destruct e.
Qed.

(** The handler changes neither the outcome of the [try] body nor the files. *)
Lemma load_file_api_try_except file w :
  let run := load_file_api isprintable lower load gettempdir candidate mkstemp_error file w in
  let body := load_file_api_try isprintable lower load gettempdir candidate mkstemp_error
                file (announced file w) in
  run.1 = body.1 /\ fs run.2 = fs body.2 /\ handles run.2 = handles body.2.
Proof.
  unfold load_file_api, bind, emit, try_except. fold (announced file w).
  destruct (load_file_api_try _ _ _ _ _ _ file (announced file w)) as [[docs | e] w'].
  - done.
  - simpl. destruct (load_file_api_except_spec e w') as (-> & -> & -> & _). done.
Qed.

Lemma load_file_api_try_no_filename file w :
  filename file = None ->
  load_file_api_try isprintable lower load gettempdir candidate mkstemp_error file w
  = (Raise (TypeError (py "expected str, bytes or os.PathLike object, not NoneType")), w).
Proof. intros Hn. unfold load_file_api_try, bind, lift. by rewrite Hn. Qed.

Lemma load_file_api_try_not_created file name e w :
  filename file = Some name ->
  mkstemp_error (tmp_name gettempdir candidate (splitext name).2) = Some e ->
  load_file_api_try isprintable lower load gettempdir candidate mkstemp_error file w
  = (Raise e, w).
Proof.
  intros Hn He.
  unfold load_file_api_try, bind, lift, with_NamedTemporaryFile, NamedTemporaryFile.
  rewrite Hn. simpl. by rewrite He.
Qed.

Lemma load_file_api_try_read_fails file name e w :
  filename file = Some name ->
  let tmp := tmp_name gettempdir candidate (splitext name).2 in
  mkstemp_error tmp = None ->
  read file = Raise e ->
  load_file_api_try isprintable lower load gettempdir candidate mkstemp_error file w
  = (Raise e, tmp_close tmp (created tmp w)).
Proof.
  intros Hn tmp Hc Hr.
  unfold load_file_api_try, bind, lift, with_NamedTemporaryFile, NamedTemporaryFile.
  rewrite Hn. simpl. fold tmp. by rewrite Hc, Hr.
Qed.

(** With the upload staged, the body is [load_file] on the staged file,
    followed by the exit of the [with] block, followed by the stamping. *)
Lemma load_file_api_try_staged file name data w :
  filename file = Some name ->
  let tmp := tmp_name gettempdir candidate (splitext name).2 in
  mkstemp_error tmp = None ->
  read file = Ok data ->
  load_file_api_try isprintable lower load gettempdir candidate mkstemp_error file w
  = (result_map (map (stamp file)) (load_file isprintable lower load tmp (staged tmp data w)).1,
     tmp_close tmp (load_file isprintable lower load tmp (staged tmp data w)).2).
Proof.
  intros Hn tmp Hc Hr.
  unfold load_file_api_try, bind, lift, with_NamedTemporaryFile, NamedTemporaryFile.
  rewrite Hn. simpl. fold tmp. rewrite Hc, Hr.
  unfold tmp_write, tmp_flush, emit, ret. simpl.
  assert (Hst : mkWorld
            (alter (fun content => content ++ dict_get (alter (fun buf => buf ++ data) tmp
                      (<[tmp := []]> (handles w))) tmp []) tmp (<[tmp := []]> (fs w)))
            (alter (fun _ => []) tmp (alter (fun buf => buf ++ data) tmp (<[tmp := []]> (handles w))))
            (logger_trace_tmp tmp :: trace w)
          = staged tmp data w).
  { unfold staged, dict_get. rewrite !alter_insert_eq, lookup_insert_eq. done. }
  rewrite Hst.
  by destruct (load_file isprintable lower load tmp (staged tmp data w)) as [[docs | e] w2].
Qed.

(** The files and handles the call leaves behind. *)
Lemma tmp_close_fs tmp w : fs (tmp_close tmp w) = delete tmp (fs w).
Proof. done. Qed.

Lemma tmp_close_handles tmp w : handles (tmp_close tmp w) = delete tmp (handles w).
Proof. done. Qed.


End LoadFileApiFacts.

Lemma stamp_source file (d : Document) :
  metadata (stamp file d) !! py "source" = Some (value_of (filename file))
  /\ metadata (stamp file d) !! py "document_id" = Some (value_of (filename file)).
Proof.
  unfold stamp. simpl. split.
  - rewrite lookup_insert_ne, lookup_insert_eq; [done |].
    apply (bool_decide_eq_false_1 _). reflexivity.
  - by rewrite lookup_insert_eq.
Qed.

Lemma stamp_other file (d : Document) (k : str) :
  k <> py "source" -> k <> py "document_id" ->
  metadata (stamp file d) !! k = metadata d !! k.
Proof.
  intros H1 H2. unfold stamp. simpl. by rewrite !lookup_insert_ne.
Qed.

(** What [load_file_api] returns when it returns: the units of the loader
    selected for the staged file, normalized and stamped one by one. *)
Lemma load_file_api_Ok_inv isprintable lower load gettempdir candidate mkstemp_error
    (file : UploadFile) (w : World) documents :
  (load_file_api isprintable lower load gettempdir candidate mkstemp_error file w).1
  = Ok documents ->
  exists name data l units,
    filename file = Some name /\ read file = Ok data
    /\ select_loader lower (tmp_name gettempdir candidate (splitext name).2) = Ok l
    /\ load l (<[tmp_name gettempdir candidate (splitext name).2 := data]> (fs w)) = Ok units
    /\ documents = map (stamp file) (map (normalize isprintable) units).
Proof.
  destruct (load_file_api_try_except isprintable lower load gettempdir candidate
              mkstemp_error file w) as (-> & _).
  destruct (filename file) as [name |] eqn:Hn;
    [| by rewrite load_file_api_try_no_filename].
  destruct (mkstemp_error (tmp_name gettempdir candidate (splitext name).2)) as [e |] eqn:Hc;
    [by rewrite (load_file_api_try_not_created _ _ _ _ _ _ file name e) |].
  destruct (read file) as [data | e] eqn:Hr;
    [| by rewrite (load_file_api_try_read_fails _ _ _ _ _ _ file name e)].
  rewrite (load_file_api_try_staged _ _ _ _ _ _ file name data) by done. simpl.
  destruct (load_file _ _ _ _ _).1 as [docs | e] eqn:Hrun; [| done].
  simpl. intros [= <-].
  apply load_file_Ok_inv in Hrun as (l & units & Hl & Hu & ->).
  by exists name, data, l, units.
Qed.

(** C4. After a successful load through [load_file_api], every returned
    document has the keys [source] and [document_id] in its metadata, with
    the name of the upload as value, whatever the loader's unit holds under
    these keys; under every other key it has what the normalized unit has. *)
Theorem load_file_api_overlay isprintable lower load gettempdir candidate mkstemp_error
    (file : UploadFile) (w : World) documents :
  (load_file_api isprintable lower load gettempdir candidate mkstemp_error file w).1
  = Ok documents ->
  exists name data l units,
    filename file = Some name /\ read file = Ok data
    /\ select_loader lower (tmp_name gettempdir candidate (splitext name).2) = Ok l
    /\ load l (<[tmp_name gettempdir candidate (splitext name).2 := data]> (fs w)) = Ok units
    /\ length documents = length units
    /\ forall (i : nat) d, documents !! i = Some d ->
       exists u, units !! i = Some u
         /\ metadata d !! py "source" = Some (VStr name)
         /\ metadata d !! py "document_id" = Some (VStr name)
         /\ forall k, k <> py "source" -> k <> py "document_id" ->
              metadata d !! k = metadata (normalize isprintable u) !! k.
Proof.
  intros Hrun.
  apply load_file_api_Ok_inv in Hrun as (name & data & l & units & Hn & Hr & Hl & Hu & ->).
  exists name, data, l, units.
  split; [done |]. split; [done |]. split; [done |]. split; [done |].
  split; [by rewrite !length_map |].
  intros i d Hd. rewrite !list_lookup_fmap in Hd.
  destruct (units !! i) as [u |]; [| done].
  simpl in Hd. injection Hd as <-. exists u. split; [done |].
  destruct (stamp_source file (normalize isprintable u)) as [-> ->].
  rewrite Hn. split; [done |]. split; [done |].
  intros k H1 H2. by apply stamp_other.
Qed.

Lemma Demo_run_scan :
  (Demo.run Demo.scan).1 = Ok (Demo.documents_of (Demo.run Demo.scan).1).
Proof. by vm_compute. Qed.

Lemma load_file_api_overlay_witness :
  exists d, Demo.documents_of (Demo.run Demo.scan).1 !! 0%nat = Some d
    /\ page_content d = py "Invoice 7total"
    /\ metadata d !! py "document_id" = Some (VStr (py "scan.PDF"))
    /\ metadata d !! py "source" = Some (VStr (py "scan.PDF")).
Proof.
  destruct (load_file_api_overlay _ _ _ _ _ _ _ _ _ Demo_run_scan)
    as (name & data & l & units & Hn & _ & _ & _ & _ & Hall).
  injection Hn as <-.
  destruct (Demo.documents_of (Demo.run Demo.scan).1 !! 0%nat) as [d |] eqn:E;
    [| by vm_compute in E].
  exists d. destruct (Hall 0%nat d E) as (u & _ & Hs & Hd & _).
  split; [done |]. split; [| by split].
  vm_compute in E. by injection E as <-.
Defined.

(** C9. In every document [load_file_api] returns, [source] and
    [document_id] hold the same value, and that value is the file name of
    the upload: the handler takes no other identity from its caller. *)
Theorem load_file_api_source_is_document_id isprintable lower load gettempdir candidate
    mkstemp_error (file : UploadFile) (w : World) documents :
  (load_file_api isprintable lower load gettempdir candidate mkstemp_error file w).1
  = Ok documents ->
  exists name,
    filename file = Some name
    /\ Forall (fun d => metadata d !! py "source" = Some (VStr name)
                        /\ metadata d !! py "document_id" = Some (VStr name)
                        /\ metadata d !! py "source" = metadata d !! py "document_id")
              documents.
Proof.
  intros Hrun.
  apply load_file_api_Ok_inv in Hrun as (name & data & l & units & Hn & _ & _ & _ & ->).
  exists name. split; [done |].
  apply Forall_forall. intros d Hd.
  apply list_elem_of_fmap in Hd as (d' & -> & _).
  destruct (stamp_source file d') as [-> ->]. by rewrite Hn.
Qed.

Lemma load_file_api_source_is_document_id_witness :
  Forall (fun d => metadata d !! py "source" = Some (VStr (py "scan.PDF"))
                   /\ metadata d !! py "document_id" = Some (VStr (py "scan.PDF"))
                   /\ metadata d !! py "source" = metadata d !! py "document_id")
         (Demo.documents_of (Demo.run Demo.scan).1)
  /\ length (Demo.documents_of (Demo.run Demo.scan).1) = 1%nat.
Proof.
  destruct (load_file_api_source_is_document_id _ _ _ _ _ _ _ _ _ Demo_run_scan)
    as (name & Hn & Hall).
  injection Hn as <-. split; [exact Hall | reflexivity].
Defined.

(** C7. A failure inside the load pipeline ends the call with that very
    exception. In [load_file], the [ValueError] of an unsupported extension
    and the exception a loader raises are its outcome. In [load_file_api],
    the outcome is the outcome of the [try] body (the [except] clauses log
    and re-raise, they neither swallow nor replace an exception), and the
    exit of the [with] block lets the exception of [load_file] through: with
    the upload staged, an exception of [load_file], be it from the loader or
    for the unsupported extension of the upload, is what the caller gets. An
    outcome is either documents or an exception, never both. *)
Theorem load_file_api_propagates isprintable lower load gettempdir candidate mkstemp_error
    (file : UploadFile) (w : World) :
  let api := load_file_api isprintable lower load gettempdir candidate mkstemp_error file w in
  let body := load_file_api_try isprintable lower load gettempdir candidate mkstemp_error
                file (announced file w) in
  api.1 = body.1
  /\ (forall e, body.1 = Raise e -> api.1 = Raise e)
  /\ (forall p w0 e, select_loader lower p = Raise e ->
        load_file isprintable lower load p w0 = (Raise e, w0))
  /\ (forall p w0 l e, select_loader lower p = Ok l -> load l (fs w0) = Raise e ->
        (load_file isprintable lower load p w0).1 = Raise e)
  /\ forall name data,
       filename file = Some name ->
       let tmp := tmp_name gettempdir candidate (splitext name).2 in
       mkstemp_error tmp = None ->
       read file = Ok data ->
       (forall e, (load_file isprintable lower load tmp (staged tmp data (announced file w))).1
                  = Raise e -> api.1 = Raise e)
       /\ (forall l e, select_loader lower tmp = Ok l ->
             load l (<[tmp := data]> (fs w)) = Raise e -> api.1 = Raise e)
       /\ (Forall (fun c => c ∈ tempfile_characters) candidate ->
           lower (splitext name).2 ∉ supported_extensions ->
           api.1 = Raise (ValueError (py "Unsupported file type: " ++ lower (splitext name).2))).
Proof.
  intros api body.
  destruct (load_file_api_try_except isprintable lower load gettempdir candidate
              mkstemp_error file w) as (Hapi & _).
  fold api body in Hapi.
  split; [done |]. split; [by intros e <- |].
  split; [intros p w0 e He; by rewrite load_file_unfold, He |].
  split; [intros p w0 l e Hl He; by rewrite load_file_unfold, Hl, He |].
  intros name data Hn tmp Hc Hr.
  assert (Hbody : forall e,
    (load_file isprintable lower load tmp (staged tmp data (announced file w))).1 = Raise e ->
    api.1 = Raise e).
  { intros e He. rewrite Hapi. unfold body.
    rewrite (load_file_api_try_staged _ _ _ _ _ _ file name data) by done.
    fold tmp. simpl. by rewrite He. }
  split; [done |]. split.
  - intros l e Hl He. apply Hbody. rewrite load_file_unfold, Hl.
    cbn [staged announced fs]. by rewrite He.
  - intros Hcand Hext. apply Hbody.
    rewrite load_file_unfold. unfold tmp.
    rewrite select_loader_unsupported; by rewrite splitext_tmp_name.
Qed.

Lemma load_file_api_propagates_witness :
  (Demo.run Demo.broken).1
  = Raise (OtherException (py "PDFSyntaxError") (py "No /Root object"))
  /\ (Demo.run Demo.archive).1 = Raise (ValueError (py "Unsupported file type: .xyz")).
Proof.
  split.
  - destruct (load_file_api_propagates Demo.isprintable Demo.lower Demo.load Demo.gettempdir
                Demo.candidate Demo.mkstemp_error Demo.broken Demo.world0)
      as (_ & _ & _ & _ & H).
    destruct (H (py "broken.pdf") [] eq_refl eq_refl eq_refl) as (_ & Hload & _).
    apply (Hload (PDFPlumberLoader (py "/tmp/tmpk3x_q0ab.pdf"))); by vm_compute.
  - destruct (load_file_api_propagates Demo.isprintable Demo.lower Demo.load Demo.gettempdir
                Demo.candidate Demo.mkstemp_error Demo.archive Demo.world0)
      as (_ & _ & _ & _ & H).
    destruct (H (py "data.tar.xyz") (Demo.encode (py "payload")) eq_refl eq_refl eq_refl)
      as (_ & _ & Hext).
    apply Hext.
    + apply (bool_decide_unpack _). by vm_compute.
    + apply (bool_decide_eq_false_1 _). by vm_compute.
Defined.



(** * Further properties of the loader *)

(** ** The sanitizer *)

Lemma translate_ext (t1 t2 : Z -> option (option str)) (s : str) :
  (forall c, t1 c = t2 c) -> translate t1 s = translate t2 s.
Proof.
  intros Ht. induction s as [| c s IH]; [done |].
  simpl. by rewrite Ht, IH.
Qed.

(** The dictionary the comprehension builds has as keys the code points of
    range(0, sys.maxunicode + 1) that are neither printable nor the
    newline, all mapped to None; the newline is not a key, and
    [make_printable] is [translate] by that dictionary. *)
Theorem NOPRINT_TRANS_DICT_spec (isprintable : Z -> bool) :
  (forall i, NOPRINT_TRANS_DICT isprintable !! i
             = if is_codepoint i && negb (isprintable i) && negb (i =? newline)
               then Some None else None)
  /\ NOPRINT_TRANS_DICT isprintable !! newline = None
  /\ (forall s, make_printable isprintable s
                = translate (fun i => NOPRINT_TRANS_DICT isprintable !! i) s).
Proof.
  split; [| split].
  - intros i. rewrite NOPRINT_TRANS_DICT_lookup.
    unfold NOPRINT_TRANS_TABLE, noprint. by rewrite andb_assoc.
  - rewrite NOPRINT_TRANS_DICT_lookup. unfold NOPRINT_TRANS_TABLE, noprint.
    rewrite Z.eqb_refl. by rewrite !andb_false_r.
  - intros s. unfold make_printable. apply translate_ext.
    intros c. by rewrite NOPRINT_TRANS_DICT_lookup.
Qed.

(** [make_printable] works character by character: the sanitized
    concatenation is the concatenation of the sanitized parts, and the
    length of the result is the length of the input less the number of its
    characters that are keys of the table. *)
Theorem make_printable_concat_length (isprintable : Z -> bool) (s1 s2 : str) :
  make_printable isprintable (s1 ++ s2)
  = make_printable isprintable s1 ++ make_printable isprintable s2
  /\ (length (make_printable isprintable s1)
      + length (List.filter (fun c => is_codepoint c && noprint isprintable c) s1)
      = length s1)%nat.
Proof.
  split; [apply make_printable_app |].
  rewrite make_printable_filter_table.
  induction s1 as [| c s IH]; [done |].
  simpl. destruct (is_codepoint c && noprint isprintable c); simpl; lia.
Qed.

(** The result is empty exactly when every character of the input is a key
    of the table (in particular for the empty input). *)
Theorem make_printable_empty_iff (isprintable : Z -> bool) (s : str) :
  make_printable isprintable s = []
  <-> Forall (fun c => is_codepoint c && noprint isprintable c = true) s.
Proof.
  rewrite make_printable_filter_table.
  induction s as [| c s IH]; [by split; [constructor |] |].
  simpl. destruct (is_codepoint c && noprint isprintable c) eqn:E; simpl.
  - rewrite IH. split; [by constructor | by inversion 1].
  - split; [done |]. inversion 1; congruence.
Qed.

(** ** [load_file] *)

(** Normalization keeps every key of the unit with its value and adds at
    most the key [page]. *)
Theorem normalize_keeps_unit_metadata (isprintable : Z -> bool) (u : Document) :
  metadata u ⊆ metadata (normalize isprintable u)
  /\ dom (metadata (normalize isprintable u)) = dom (metadata u) ∪ {[ py "page" ]}.
Proof.
  unfold normalize. simpl. split.
  - apply map_union_subseteq_l.
  - by rewrite dom_union_L, dom_singleton_L.
Qed.

(** Normalizing a normalized document changes nothing. *)
Theorem normalize_idempotent (isprintable : Z -> bool) (u : Document) :
  normalize isprintable (normalize isprintable u) = normalize isprintable u.
Proof.
  unfold normalize at 1. unfold dict_get at 1.
  rewrite (normalize_page isprintable u).
  unfold normalize, dict_get. simpl.
  rewrite make_printable_idempotent. f_equal.
  apply map_eq. intros k. rewrite !lookup_union.
  destruct (decide (k = py "page")) as [-> | Hk].
  - rewrite !lookup_singleton_eq. by destruct (metadata u !! py "page").
  - rewrite !lookup_singleton_ne by done. by destruct (metadata u !! k).
Qed.

(** Dots in the directories of a path do not make an extension: when the
    last component has no dot, [load_file] raises the error for the empty
    extension. *)
Theorem load_file_directory_dots isprintable lower load (pre f : str) (w : World) :
  lower [] = [] ->
  is_dir_prefix pre -> sep ∉ f -> extsep ∉ f ->
  load_file isprintable lower load (pre ++ f) w
  = (Raise (ValueError (py "Unsupported file type: ")), w).
Proof.
  intros Hlower Hpre Hs Hd.
  rewrite load_file_unfold. unfold select_loader.
  rewrite splitext_no_dot by done. cbn [snd]. by rewrite Hlower.
Qed.

Lemma load_file_directory_dots_witness :
  load_file Demo.isprintable Demo.lower Demo.load (py "/data/v1.2.pdf/README") Demo.world0
  = (Raise (ValueError (py "Unsupported file type: ")), Demo.world0).
Proof.
  apply (load_file_directory_dots Demo.isprintable Demo.lower Demo.load
           (py "/data/v1.2.pdf/") (py "README") Demo.world0).
  - reflexivity.
  - right. by exists (py "/data/v1.2.pdf").
  - apply (bool_decide_eq_false_1 _). reflexivity.
  - apply (bool_decide_eq_false_1 _). reflexivity.
Defined.

(** Root and extension of [splitext] concatenate to the path, and the
    extension is empty or a dot followed by characters that are neither
    dots nor separators. *)
Theorem splitext_root_ext (p : str) :
  (splitext p).1 ++ (splitext p).2 = p
  /\ ((splitext p).2 = []
      \/ exists e, (splitext p).2 = extsep :: e /\ (extsep ∉ e) /\ (sep ∉ e)).
Proof. apply splitext_ext_shape. Qed.

(** ** [load_file_api] *)

(** A successful call, in full: with the upload staged, a loader selected
    for the staged file and units loaded from it, [load_file_api] returns
    the units normalized and stamped, has removed the staged file and its
    handle, and has made four calls: the upload log, the trace of the
    temporary name, the loader's [load] and the log of the loaded units. *)
Theorem load_file_api_success isprintable lower load gettempdir candidate mkstemp_error
    (file : UploadFile) (w : World) (name : str) (data : bytes)
    (l : Loader) (units : list Document) :
  filename file = Some name ->
  let tmp := tmp_name gettempdir candidate (splitext name).2 in
  mkstemp_error tmp = None ->
  read file = Ok data ->
  select_loader lower tmp = Ok l ->
  load l (<[tmp := data]> (fs w)) = Ok units ->
  load_file_api isprintable lower load gettempdir candidate mkstemp_error file w
  = (Ok (map (stamp file) (map (normalize isprintable) units)),
     mkWorld (delete tmp (fs w)) (delete tmp (handles w))
       (logger_info_docio units :: loader_load l :: logger_trace_tmp tmp
          :: logger_info_upload (content_type file) (filename file) :: trace w)).
Proof.
  intros Hn tmp Hc Hr Hl Hu.
  unfold load_file_api, bind, emit, try_except. fold (announced file w).
  rewrite (load_file_api_try_staged _ _ _ _ _ _ file name data) by done. fold tmp.
  rewrite load_file_unfold, Hl. cbn [staged announced fs]. rewrite Hu.
  unfold tmp_close. simpl. by rewrite !delete_insert_eq.
Qed.

Lemma load_file_api_success_witness :
  (Demo.run Demo.scan).1
  = Ok [ stamp Demo.scan (normalize Demo.isprintable
           (mkDocument (py "Invoice 7" ++ [12] ++ py "total")
              {[ py "source" := VStr (py "/tmp/tmpk3x_q0ab.PDF"); py "page" := VInt 1;
                 py "document_id" := VStr (py "internal") ]})) ]
  /\ trace (Demo.run Demo.scan).2
     = [ logger_info_docio
           [mkDocument (py "Invoice 7" ++ [12] ++ py "total")
              {[ py "source" := VStr (py "/tmp/tmpk3x_q0ab.PDF"); py "page" := VInt 1;
                 py "document_id" := VStr (py "internal") ]}];
         loader_load (PDFPlumberLoader (py "/tmp/tmpk3x_q0ab.PDF"));
         logger_trace_tmp (py "/tmp/tmpk3x_q0ab.PDF");
         logger_info_upload (content_type Demo.scan) (filename Demo.scan) ].
Proof.
  assert (Hl : select_loader Demo.lower
                 (tmp_name Demo.gettempdir Demo.candidate (splitext (py "scan.PDF")).2)
               = Ok (PDFPlumberLoader (py "/tmp/tmpk3x_q0ab.PDF"))) by reflexivity.
  assert (Hu : Demo.load (PDFPlumberLoader (py "/tmp/tmpk3x_q0ab.PDF"))
                 (<[tmp_name Demo.gettempdir Demo.candidate (splitext (py "scan.PDF")).2
                    := Demo.encode (py "Invoice 7" ++ [12] ++ py "total")]> (fs Demo.world0))
               = Ok [mkDocument (py "Invoice 7" ++ [12] ++ py "total")
                       {[ py "source" := VStr (py "/tmp/tmpk3x_q0ab.PDF"); py "page" := VInt 1;
                          py "document_id" := VStr (py "internal") ]}])
    by (vm_compute; reflexivity).
  unfold Demo.run.
  rewrite (load_file_api_success Demo.isprintable Demo.lower Demo.load Demo.gettempdir
             Demo.candidate Demo.mkstemp_error Demo.scan Demo.world0 (py "scan.PDF")
             _ _ _ eq_refl eq_refl eq_refl Hl Hu).
  split; reflexivity.
Defined.

(** The staged file has the extension of the upload, so the loader selected
    for it is the loader [load_file] would select for the upload's name,
    made for the staged path, and an upload without loader is refused with
    the same error. *)
Theorem staged_file_dispatch lower (gettempdir candidate name : str) :
  Forall (fun c => c ∈ tempfile_characters) candidate ->
  let tmp := tmp_name gettempdir candidate (splitext name).2 in
  (splitext tmp).2 = (splitext name).2
  /\ select_loader lower tmp
     = result_map (fun l => with_file_path l tmp) (select_loader lower name).
Proof.
  intros Hcand tmp.
  assert (E : (splitext tmp).2 = (splitext name).2) by by apply splitext_tmp_name.
  split; [done |]. unfold select_loader. rewrite E.
  destruct (bool_decide _); [done |].
  destruct (str_eqb _ _); [done |].
  by destruct (str_eqb _ _).
Qed.

Lemma staged_file_dispatch_witness :
  select_loader Demo.lower (tmp_name Demo.gettempdir Demo.candidate (splitext (py "My.Report.CSV")).2)
  = Ok (CSVLoader (py "/tmp/tmpk3x_q0ab.CSV")).
Proof.
  assert (H : Forall (fun c => c ∈ tempfile_characters) Demo.candidate)
    by (apply (bool_decide_unpack _); by vm_compute).
  rewrite (proj2 (staged_file_dispatch Demo.lower Demo.gettempdir Demo.candidate
                    (py "My.Report.CSV") H)).
  reflexivity.
Defined.

(** An upload without a file name fails with the [TypeError] of [splitext]
    before any temporary file is created: files and handles are untouched,
    and the error is logged once, after the upload log. *)
Theorem load_file_api_no_filename isprintable lower load gettempdir candidate mkstemp_error
    (file : UploadFile) (w : World) :
  filename file = None ->
  load_file_api isprintable lower load gettempdir candidate mkstemp_error file w
  = (Raise (TypeError (py "expected str, bytes or os.PathLike object, not NoneType")),
     mkWorld (fs w) (handles w)
       (logger_exception (TypeError (py "expected str, bytes or os.PathLike object, not NoneType"))
          :: logger_info_upload (content_type file) None :: trace w)).
Proof.
  intros Hn. unfold load_file_api, bind, emit, try_except. fold (announced file w).
  rewrite load_file_api_try_no_filename by done.
  unfold announced. by rewrite Hn.
Qed.

Lemma load_file_api_no_filename_witness :
  (load_file_api Demo.isprintable Demo.lower Demo.load Demo.gettempdir Demo.candidate
     Demo.mkstemp_error (mkUploadFile None None (Ok [])) Demo.world0).1
  = Raise (TypeError (py "expected str, bytes or os.PathLike object, not NoneType")).
Proof.
  rewrite (load_file_api_no_filename Demo.isprintable Demo.lower Demo.load Demo.gettempdir
             Demo.candidate Demo.mkstemp_error (mkUploadFile None None (Ok [])) Demo.world0
             eq_refl).
  reflexivity.
Defined.

Lemma load_file_logged_exceptions isprintable lower load (p : str) (w : World) :
  logged_exceptions (trace (load_file isprintable lower load p w).2)
  = logged_exceptions (trace w).
Proof.
  rewrite load_file_unfold.
  destruct (select_loader lower p) as [l | e]; [| done].
  by destruct (load l (fs w)).
Qed.

Lemma load_file_api_try_logged_exceptions isprintable lower load gettempdir candidate
    mkstemp_error (file : UploadFile) (w : World) :
  logged_exceptions
    (trace (load_file_api_try isprintable lower load gettempdir candidate mkstemp_error
              file w).2)
  = logged_exceptions (trace w).
Proof.
  destruct (filename file) as [name |] eqn:Hn;
    [| by rewrite load_file_api_try_no_filename].
  destruct (mkstemp_error (tmp_name gettempdir candidate (splitext name).2)) as [e |] eqn:Hc;
    [by rewrite (load_file_api_try_not_created _ _ _ _ _ _ file name e) |].
  destruct (read file) as [data | e] eqn:Hr;
    [| by rewrite (load_file_api_try_read_fails _ _ _ _ _ _ file name e)].
  rewrite (load_file_api_try_staged _ _ _ _ _ _ file name data) by done.
  cbn [snd tmp_close trace]. by rewrite load_file_logged_exceptions.
Qed.

(** [load_file_api] passes an exception to [logger.exception] only in its
    [except Exception] clause: a call that returns logs none, a call that
    ends with a [RequestValidationError] or with an exception outside
    [Exception] logs none, and a call that ends with any other exception
    logs that exception, once. *)
Theorem load_file_api_logs_failure_once isprintable lower load gettempdir candidate
    mkstemp_error (file : UploadFile) (w : World) :
  let api := load_file_api isprintable lower load gettempdir candidate mkstemp_error file w in
  logged_exceptions (trace api.2)
  = match api.1 with
    | Ok _ => logged_exceptions (trace w)
    | Raise e =>
        if is_Exception e && negb (is_RequestValidationError e)
        then e :: logged_exceptions (trace w)
        else logged_exceptions (trace w)
    end.
Proof.
  intros api. unfold api, load_file_api, bind, emit, try_except. fold (announced file w).
  pose proof (load_file_api_try_logged_exceptions isprintable lower load gettempdir candidate
                mkstemp_error file (announced file w)) as Hbody.
  destruct (load_file_api_try _ _ _ _ _ _ file (announced file w)) as [[docs | e] w'].
  - simpl in *. by rewrite Hbody.
  - simpl in Hbody. unfold load_file_api_except.
    destruct e; simpl; by rewrite Hbody.
Qed.

Lemma make_printable_keeps (isprintable : Z -> bool) (s : str) :
  valid_str s ->
  Forall (fun c => isprintable c = true \/ c = newline) (make_printable isprintable s).
Proof.
  intros Hs. rewrite make_printable_filter by done.
  apply List.Forall_forall. intros c Hc. apply List.filter_In in Hc as [_ Hc].
  by apply keeps_spec.
Qed.

(** The documents [load_file_api] returns, against the units they were made
    from: the text is the unit's text sanitized (only printable characters
    and newlines, when the unit's text is a string of code points), the
    [page] is the unit's page or 0, and the keys are the unit's keys with
    [page], [source] and [document_id]. *)
Theorem load_file_api_documents isprintable lower load gettempdir candidate mkstemp_error
    (file : UploadFile) (w : World) documents :
  (load_file_api isprintable lower load gettempdir candidate mkstemp_error file w).1
  = Ok documents ->
  exists name data l units,
    filename file = Some name /\ read file = Ok data
    /\ select_loader lower (tmp_name gettempdir candidate (splitext name).2) = Ok l
    /\ load l (<[tmp_name gettempdir candidate (splitext name).2 := data]> (fs w)) = Ok units
    /\ forall (i : nat) d, documents !! i = Some d ->
       exists u, units !! i = Some u
         /\ page_content d = make_printable isprintable (page_content u)
         /\ (valid_str (page_content u) ->
             Forall (fun c => isprintable c = true \/ c = newline) (page_content d))
         /\ metadata d !! py "page" = Some (dict_get (metadata u) (py "page") (VInt 0))
         /\ dom (metadata d)
            = dom (metadata u) ∪ {[ py "page"; py "source"; py "document_id" ]}.
Proof.
  intros Hrun.
  apply load_file_api_Ok_inv in Hrun as (name & data & l & units & Hn & Hr & Hl & Hu & ->).
  exists name, data, l, units. do 4 (split; [done |]).
  intros i d Hd. rewrite !list_lookup_fmap in Hd.
  destruct (units !! i) as [u |]; [| done].
  simpl in Hd. injection Hd as <-. exists u. split; [done |].
  split; [done |]. split; [apply make_printable_keeps |]. split.
  - rewrite stamp_other; [apply normalize_page | |];
      apply (bool_decide_eq_false_1 _); reflexivity.
  - unfold stamp, normalize. simpl.
    rewrite !dom_insert_L, dom_union_L, dom_singleton_L.
    apply set_eq. intros k. rewrite !elem_of_union, !elem_of_singleton. tauto.
Qed.

Lemma load_file_api_documents_witness :
  exists d, Demo.documents_of (Demo.run Demo.scan).1 !! 0%nat = Some d
    /\ metadata d !! py "page" = Some (VInt 1)
    /\ Forall (fun c => Demo.isprintable c = true \/ c = newline) (page_content d).
Proof.
  destruct (load_file_api_documents _ _ _ _ _ _ _ _ _ Demo_run_scan)
    as (name & data & l & units & Hn & Hr & Hl & Hu & Hall).
  destruct (Demo.documents_of (Demo.run Demo.scan).1 !! 0%nat) as [d |] eqn:E;
    [| by vm_compute in E].
  destruct (Hall 0%nat d E) as (u & Hi & _ & Hvalid & Hpage & _).
  injection Hn as <-. injection Hr as <-.
  vm_compute in Hl. injection Hl as <-.
  vm_compute in Hu. injection Hu as <-.
  vm_compute in Hi. injection Hi as <-.
  exists d. split; [done |]. split.
  - rewrite Hpage. by vm_compute.
  - apply Hvalid. repeat constructor.
Defined.

(** * The echo endpoint *)

Section EchoFacts.

Variable ChatCompletionRequest : Type.
Variable request_id : ChatCompletionRequest -> str.
Variable request_model : ChatCompletionRequest -> str.
Variable request_stream : ChatCompletionRequest -> bool.
Variable model_dump_json : ChatCompletionRequest -> str.
Variable ChatEntry : Type.
Variable ChatEntry_assistant : str -> ChatEntry.
Variable now : nat -> Z.
Variable model_dump_str : ChatCompletionResponse ChatEntry -> str.

Implicit Types (body : ChatCompletionRequest) (output : str) (i : nat) (char : Z).

Lemma chunk_content_chunk body output i char :
  chunk_content (chunk request_id request_model (ChatEntry := ChatEntry) now body output i char)
  = [char].
Proof. unfold chunk_content, chunk, dict_get. simpl. by rewrite lookup_singleton_eq. Qed.

Lemma concat_singletons {A B} (f : nat -> A -> B) (g : B -> list A) (l : list A) :
  (forall i x, g (f i x) = [x]) -> concat (g <$> imap f l) = l.
Proof.
  revert f. induction l as [| x l IH]; intros f Hg; [done |].
  rewrite imap_cons. simpl. rewrite Hg. simpl. f_equal.
  apply IH. intros i y. apply Hg.
Qed.


(** The texts of the streamed chunks, put together, are the serialized
    request: the stream echoes it character by character. *)
Theorem stream_echoes_request body output :
  concat (chunk_content
            <$> imap (chunk request_id request_model (ChatEntry := ChatEntry) now body output)
                     output)
  = output.
Proof. apply concat_singletons. intros i x. apply chunk_content_chunk. Qed.

(** Only the last chunk of a stream finishes: every chunk before it has no
    finish reason, the last has [stop]; a stream for an empty serialization
    has no chunk at all. *)
Theorem stream_finish_reasons body output :
  chunk_finish_reason
    <$> imap (chunk request_id request_model (ChatEntry := ChatEntry) now body output) output
  = replicate (length output - 1) None
    ++ match output with [] => [] | _ :: _ => [Some (py "stop")] end.
Proof.
  apply list_eq. intros i. rewrite list_lookup_fmap, list_lookup_imap.
  unfold str in *.
  destruct (output !! i) as [char |] eqn:Ei; simpl.
  - apply lookup_lt_Some in Ei as Hlt.
    unfold chunk_finish_reason, chunk, len. simpl.
    destruct (Z.ltb_spec (Z.of_nat i) (Z.of_nat (length output) - 1)).
    + rewrite lookup_app_l by (rewrite length_replicate; lia).
      by rewrite lookup_replicate_2 by lia.
    + rewrite lookup_app_r by (rewrite length_replicate; lia).
      rewrite length_replicate.
      replace (i - (length output - 1))%nat with 0%nat by lia.
      by destruct output.
  - apply lookup_ge_None in Ei. symmetry. apply lookup_ge_None.
    rewrite length_app, length_replicate. destruct output; simpl in *; lia.
Qed.

(** Every streamed chunk carries the identifier and the model of the
    request and a usage in which the prompt counts the characters of the
    serialized request, the completion counts the characters sent so far
    (at least one, at most all), and the total is their sum. *)
Theorem stream_chunk_usage body output :
  Forall (fun c : ChatCompletionResponse ChatEntry =>
            response_id c = request_id body
            /\ response_model c = request_model body
            /\ exists u, usage c = Some u
                 /\ prompt_tokens u = len output
                 /\ 1 <= completion_tokens u <= len output
                 /\ total_tokens u = prompt_tokens u + completion_tokens u)
         (imap (chunk request_id request_model now body output) output).
Proof.
  apply Forall_forall. intros c Hc.
  apply elem_of_lookup_imap_1 in Hc as (i & char & -> & Hi).
  apply lookup_lt_Some in Hi.
  split; [done |]. split; [done |].
  eexists. split; [reflexivity |]. unfold len. simpl. lia.
Qed.

(** Without streaming, the reply has one choice, the assistant message
    holding the serialized request, finished with [stop], and a usage that
    counts its characters as prompt and as completion; this is the usage
    the last chunk of the streamed reply to the same request carries. With
    streaming, the reply is the event stream. *)
Theorem chat_completion_reply body :
  let output := model_dump_json body in
  (request_stream body = false ->
   exists r : ChatCompletionResponse ChatEntry,
     chat_completion request_id request_model request_stream model_dump_json
       ChatEntry_assistant now model_dump_str body = Returned r
     /\ choices r = [inl (mkChatCompletionChoice 0 (ChatEntry_assistant output)
                            (Some (py "stop")))]
     /\ usage r = Some (mkCompletionUsage (len output) (len output) (2 * len output))
     /\ forall c : ChatCompletionResponse ChatEntry,
          last (imap (chunk request_id request_model now body output) output) = Some c ->
          usage c = usage r)
  /\ (request_stream body = true ->
      chat_completion request_id request_model request_stream model_dump_json
        ChatEntry_assistant now model_dump_str body
      = StreamingResponse
          (stream_response request_id request_model now model_dump_str body output)
          (py "text/event-stream")).
Proof.
  intros output. unfold chat_completion. fold output. split; intros ->; [| done].
  eexists. split; [reflexivity |]. split; [done |]. split.
  - simpl. do 2 f_equal. lia.
  - intros c Hc. rewrite last_lookup, length_imap, list_lookup_imap in Hc.
    unfold str in *.
    destruct (output !! pred (length output)) as [char |] eqn:Ei; [| done].
    apply lookup_lt_Some in Ei as Hlt.
    simpl in Hc. injection Hc as <-. unfold chunk, len. simpl.
    do 2 f_equal; lia.
Qed.

End EchoFacts.

Lemma chat_completion_reply_witness :
  exists r, EchoDemo.run EchoDemo.plain = Returned r
    /\ usage r = Some (mkCompletionUsage 2 2 4).
Proof.
  destruct (proj1 (chat_completion_reply EchoDemo.Request EchoDemo.rid EchoDemo.rmodel
                     EchoDemo.rstream EchoDemo.rjson (str * str)%type EchoDemo.assistant
                     EchoDemo.now EchoDemo.dump EchoDemo.plain) eq_refl)
    as (r & Hr & _ & Hu & _).
  exists r. split; [exact Hr | exact Hu].
Defined.

(** * The loader calls of [load_file_api] *)



